(** * ai-git: session lifecycle, response parser and change applier

    A shallow embedding of [aigit.py].  Python values are modelled as the
    code uses them: [str] as [string] (characters are code points below
    256), [int] as [Z], insertion-ordered [dict] as an association list
    with in-place overwrite, [set] as [gset], the files outside [.git] as a
    [gmap] from the name of a file to its content.  Calls that may raise
    return a [Result]; the stateful methods of [AIGitTool] run in a
    state-and-exception monad over the tool state (in-memory session,
    repository, files, log).  What the operating system, [pathlib] and git
    decide is read from an environment. *)

From Stdlib Require Import ZArith Ascii String List Bool Lia.
From stdpp Require Import base option list gmap strings.

Set Warnings "-register-all".
#[local] Arguments String.append !_ _ / : simpl nomatch.
Local Open Scope string_scope.
Local Open Scope Z_scope.

(** ** Exceptions and results *)

Inductive Exn :=
| ValueError (msg : string)
| AttributeError (msg : string)
| TypeError (msg : string)
| OSError (msg : string)
| JSONDecodeError (msg : string)
| UnpicklingError (msg : string)
| GitCommandError (msg : string)
| NotImplementedError (msg : string)
| UnicodeDecodeError (msg : string).

Inductive Result (A : Type) :=
| Ok (a : A)
| Raise (e : Exn).
Arguments Ok {A} a.
Arguments Raise {A} e.

(** [str(e)] of a caught exception. *)
Definition exn_str (e : Exn) : string :=
  match e with
  | ValueError m | AttributeError m | TypeError m | OSError m
  | JSONDecodeError m | UnpicklingError m | GitCommandError m
  | NotImplementedError m | UnicodeDecodeError m => m
  end.

(** [isinstance(e, git.GitCommandError)], the test of the inner handler of
    [merge_to_main]. *)
Definition is_GitCommandError (e : Exn) : bool :=
  match e with GitCommandError _ => true | _ => false end.

(** ** Python [str] operations *)

Module PyStr.

Definition nl : string := String (ascii_of_nat 10) "".

Definition len (s : string) : Z := Z.of_nat (String.length s).

(** [c.isspace()] for a code point below 256. *)
Definition isspace (c : ascii) : bool :=
  let n := nat_of_ascii c in
  (((9 <=? n) && (n <=? 13)) || ((28 <=? n) && (n <=? 32))
   || (n =? 133) || (n =? 160))%nat.

(** [s.startswith(sub)] *)
Fixpoint startswith (sub s : string) : bool :=
  match sub, s with
  | "", _ => true
  | String _ _, "" => false
  | String a sub', String b s' => Ascii.eqb a b && startswith sub' s'
  end.

(** [sub in s] *)
Fixpoint contains (sub s : string) : bool :=
  startswith sub s ||
  match s with
  | "" => false
  | String _ s' => contains sub s'
  end.

Fixpoint find_from (sub s : string) (i : Z) : Z :=
  if startswith sub s then i
  else match s with
       | "" => -1
       | String _ s' => find_from sub s' (i + 1)
       end.

(** [s.find(sub)]: lowest index of an occurrence, [-1] when there is none. *)
Definition find (sub s : string) : Z := find_from sub s 0.

Fixpoint rfind_from (sub s : string) (i : Z) : Z :=
  match s with
  | "" => if startswith sub s then i else -1
  | String _ s' =>
      let r := rfind_from sub s' (i + 1) in
      if 0 <=? r then r else if startswith sub s then i else -1
  end.

(** [s.rfind(sub)]: highest index of an occurrence, [-1] when there is none. *)
Definition rfind (sub s : string) : Z := rfind_from sub s 0.

Fixpoint take (n : nat) (s : string) : string :=
  match n, s with
  | S k, String c s' => String c (take k s')
  | _, _ => ""
  end.

Fixpoint drop (n : nat) (s : string) : string :=
  match n, s with
  | S k, String _ s' => drop k s'
  | _, _ => s
  end.

(** A slice bound as Python normalises it: negative bounds count from the
    end, and the result is clamped to [0, len]. *)
Definition clamp (n i : Z) : Z :=
  let j := if i <? 0 then i + n else i in
  Z.max 0 (Z.min n j).

(** [s[a:b]] *)
Definition slice (a b : Z) (s : string) : string :=
  let a' := clamp (len s) a in
  let b' := clamp (len s) b in
  take (Z.to_nat (b' - a')) (drop (Z.to_nat a') s).

Fixpoint lstrip (s : string) : string :=
  match s with
  | "" => ""
  | String c s' => if isspace c then lstrip s' else s
  end.

Fixpoint rstrip (s : string) : string :=
  match s with
  | "" => ""
  | String c s' =>
      match rstrip s' with
      | "" => if isspace c then "" else String c ""
      | r => String c r
      end
  end.

(** [s.strip()] *)
Definition strip (s : string) : string := rstrip (lstrip s).

(** The pieces of [s.split(sep)] as the first piece and the others.  [skip]
    counts the characters of a separator just matched that are still to be
    passed over. *)
Fixpoint split_go (sep s : string) (skip : nat) : string * list string :=
  match s with
  | "" => ("", [])
  | String c s' =>
      match skip with
      | S k => split_go sep s' k
      | O =>
          if startswith sep s then
            let '(h, t) := split_go sep s' (String.length sep - 1) in
            ("", h :: t)
          else
            let '(h, t) := split_go sep s' 0 in
            (String c h, t)
      end
  end.

(** [s.split(sep)] for a non-empty [sep] (Python raises [ValueError] on an
    empty one; the program only splits on constants). *)
Definition split (sep s : string) : list string :=
  let '(h, t) := split_go sep s 0 in h :: t.

(** [s.split(sep, 1)] *)
Definition split1 (sep s : string) : list string :=
  let i := find sep s in
  if i <? 0 then [s]
  else [slice 0 i s; slice (i + len sep) (len s) s].

(** [sep.join(parts)] *)
Fixpoint join (sep : string) (parts : list string) : string :=
  match parts with
  | [] => ""
  | [p] => p
  | p :: ps => p +:+ sep +:+ join sep ps
  end.

(** No occurrence of [sub] starts inside [a] when [a] is followed by [t]. *)
Fixpoint no_start (sub a t : string) : Prop :=
  match a with
  | "" => True
  | String _ a' => startswith sub (a +:+ t) = false /\ no_start sub a' t
  end.

(** The character [c] does not occur in [s]. *)
Fixpoint no_char (c : ascii) (s : string) : bool :=
  match s with
  | "" => true
  | String x s' => negb (Ascii.eqb c x) && no_char c s'
  end.

End PyStr.

(** ** Python [dict]: insertion-ordered, keys unique *)

Module PyDict.

Definition t (V : Type) : Type := list (string * V).

Fixpoint get {V} (k : string) (d : t V) : option V :=
  match d with
  | [] => None
  | (k', v) :: d' => if String.eqb k k' then Some v else get k d'
  end.

(** [k in d] *)
Definition mem {V} (k : string) (d : t V) : bool :=
  match get k d with Some _ => true | None => false end.

(** [d[k] = v]: overwrite in place when the key is present, append otherwise. *)
Fixpoint set {V} (k : string) (v : V) (d : t V) : t V :=
  match d with
  | [] => [(k, v)]
  | (k', v') :: d' =>
      if String.eqb k k' then (k', v) :: d' else (k', v') :: set k v d'
  end.

(** [d.keys()] *)
Definition keys {V} (d : t V) : list string := map fst d.

(** [not d] *)
Definition is_empty {V} (d : t V) : bool :=
  match d with [] => true | _ => false end.

End PyDict.

(** ** [pathlib] paths *)

(** [str(Path(text))] on a POSIX system: empty components and [.] are
    dropped, one or two leading slashes are kept as the root, three or more
    count as one, and the empty path is [.]. *)
Definition path_parts (text : string) : list string :=
  List.filter
    (fun part => negb (String.eqb part "") && negb (String.eqb part "."))
    (PyStr.split "/" text).

Definition path_root (text : string) : string :=
  if PyStr.startswith "//" text && negb (PyStr.startswith "///" text) then "//"
  else if PyStr.startswith "/" text then "/"
  else "".

Definition path_str (text : string) : string :=
  let joined := path_root text +:+ PyStr.join "/" (path_parts text) in
  if String.eqb joined "" then "." else joined.

(** A path relative to the root that lies in the directory [.git]. *)
Definition inside_git (path : string) : bool :=
  String.eqb path ".git" || PyStr.startswith ".git/" path.

(** ** Response parser: [AIGitREPL._parse_ollama_response] *)

Definition FILE_MARK : string := "FILE: ".
Definition FENCE : string := "```".

(** [content_start > 2 and content_end > content_start] *)
Definition fences_located (section : string) : bool :=
  let content_start := PyStr.find FENCE section + 3 in
  let content_end := PyStr.rfind FENCE section in
  (2 <? content_start) && (content_start <? content_end).

(** The body of the loop over [sections[1:]].  None of the string operations
    in the [try] block raises, so the [except] branch is never taken. *)
Definition parse_section (changes : PyDict.t string) (section : string)
  : PyDict.t string :=
  let lines := PyStr.split1 PyStr.nl section in
  let filename := PyStr.strip (hd "" lines) in
  let content_start := PyStr.find FENCE section + 3 in
  let content_end := PyStr.rfind FENCE section in
  if (2 <? content_start) && (content_start <? content_end) then
    let file_content :=
      PyStr.strip (PyStr.slice content_start content_end section) in
    PyDict.set filename file_content changes
  else changes.

Definition parse_sections (sections : list string) : PyDict.t string :=
  fold_left parse_section sections [].

Definition no_changes : Exn := ValueError "No valid changes found in response".

(** The parser on the text of the response. *)
Definition parse_content (content : string) : Result (PyDict.t string) :=
  let sections := PyStr.split FILE_MARK content in
  let changes := parse_sections (tl sections) in
  if PyDict.is_empty changes then Raise no_changes else Ok changes.

(** [_parse_ollama_response(response)]; [response] is the decoded JSON
    object of the backend, a dict with text values. *)
Definition _parse_ollama_response (response : PyDict.t string)
  : Result (PyDict.t string) :=
  if PyDict.is_empty response || negb (PyDict.mem "response" response) then
    Raise (ValueError "Invalid response from Ollama")
  else
    match PyDict.get "response" response with
    | Some content => parse_content content
    | None => Raise (ValueError "Invalid response from Ollama")
    end.

(** What a section with located fences contributes: the first line, trimmed,
    and the text between the first and the last fence, trimmed. *)
Definition section_filename (section : string) : string :=
  PyStr.strip (hd "" (PyStr.split1 PyStr.nl section)).

Definition section_content (section : string) : string :=
  PyStr.strip
    (PyStr.slice (PyStr.find FENCE section + 3) (PyStr.rfind FENCE section) section).

Definition newline : ascii := ascii_of_nat 10.
Definition backtick : ascii := ascii_of_nat 96.

(** The text of a section as the prompt asks for it: the path on the first
    line, text [a], a fence, the file's content, a fence, text [b]. *)
Definition fenced_section (path a body b : string) : string :=
  path +:+ PyStr.nl +:+ a +:+ FENCE +:+ body +:+ FENCE +:+ b.

(** A section whose fence is opened and never closed. *)
Definition unterminated_section (path a body : string) : string :=
  path +:+ PyStr.nl +:+ a +:+ FENCE +:+ body.

Definition scenario_response : string :=
  PyStr.join PyStr.nl ["Intro text"; "FILE: a.py"; "```"; "print(1)"; "```"].

(** A well-formed section followed by one whose fence is never closed. *)
Definition unterminated_response : string :=
  PyStr.join PyStr.nl
    ["Intro text"; "FILE: a.py"; "```"; "print(1)"; "```";
     "FILE: b.py"; "```"; "print(2)"].

(** The marker written without the space. *)
Definition nospace_response : string :=
  PyStr.join PyStr.nl ["FILE:a.py"; "```"; "print(1)"; "```"].

(** A section with the marker, then one whose marker lacks the space. *)
Definition mixed_response : string :=
  PyStr.join PyStr.nl
    ["FILE: a.py"; "```"; "A"; "```"; "FILE:b.py"; "```"; "B"; "```"].

(** ** Data model *)

(** An entry of [Session.changes_history]: the dict with the keys
    [timestamp], [prompt], [changes] and [commit]. *)
Record ChangeRecord := {
  cr_timestamp : string;
  cr_prompt : string;
  cr_changes : list string;
  cr_commit : string;
}.

Record Session := {
  branch : string;
  context_files : gset string;
  changes_history : list ChangeRecord;
  created_at : string;
}.

(** A decoded JSON document, as [json.load] returns it. *)
Inductive Json :=
| JNull
| JBool (b : bool)
| JNum (n : Z)
| JStr (s : string)
| JArr (items : list Json)
| JObj (members : PyDict.t Json).

(** The two serialisation libraries the tool calls.  [pickle.load] and
    [json.load] raise on input they cannot decode. *)
Class Codecs := {
  blob : Type;
  pickle_dump : Session -> blob;
  pickle_load : blob -> Result Session;
  json_load : string -> Result Json;
}.

(** The repository as GitPython shows it to the tool. *)
Record Repo := {
  heads : gmap string string;   (* branch name to the hexsha of its tip *)
  HEAD : option string;         (* the checked-out branch, [None] when detached *)
  dirty : bool;                 (* [repo.is_dirty()] *)
  merging : bool;               (* the index holds unmerged paths: a merge stopped
                                   on conflicts that are not resolved *)
  merge_head : bool;            (* MERGE_HEAD exists: a merge is not concluded *)
}.

(** What the tool and git read from the directory [.git]: the repository,
    the persisted session and the configuration file. *)
Definition GitDir (blob : Type) : Type := (Repo * option blob * option string)%type.

(** How [git merge <branch>] ends.  A failed merge raises
    [GitCommandError msg]; after a conflict git leaves the merge in
    progress, after a refusal (unrelated histories, unknown revision) it
    does not. *)
Inductive MergeOutcome :=
| Merged (tip : string)
| MergeFailed (msg : string) (in_progress : bool).

(** The git commands of the tool that rewrite the working tree. *)
Inductive GitAction :=
| DoCheckout (branch_name : string)
| DoMerge (branch_name : string)
| DoAbort.

(** How opening a file for writing and writing to it ends: all written,
    [open] raises and the file is untouched, or a write raises after [open]
    and the file is left holding [residue]. *)
Inductive WriteOutcome (C : Type) :=
| WrOk
| WrOpenFails
| WrTorn (residue : C).
Arguments WrOk {C}.
Arguments WrOpenFails {C}.
Arguments WrTorn {C} residue.

(** What the world outside the program decides. *)
Record Env `{Codecs} := {
  now_str : string;                          (* [str(datetime.now())] *)
  now_stamp : string;                        (* [strftime("%Y-%m-%d %H:%M:%S")] *)
  create_head_fails : string -> bool;
  checkout_fails : string -> bool;
  merge_outcome : string -> MergeOutcome;
  mkdir_fails : string -> bool;              (* by file path, for its parent *)
  write_outcome : string -> WriteOutcome string;   (* by path *)
  read_fails : string -> bool;               (* by path: [open] or [read] raises *)
  read_error : string -> Exn;                (* what it raises: [OSError], or
                                                [UnicodeDecodeError] for bytes that are no text *)
  session_write_outcome : WriteOutcome blob;
  session_read_fails : bool;
  config_read_fails : bool;
  rglob : string -> list string;             (* [str] of the paths under the root that
                                                match a pattern [pathlib] accepts *)
  pattern_rejected : string -> option Exn;   (* a relative pattern [pathlib] refuses,
                                                or whose search raises *)
  resolve : string -> string;                (* the file [open(path)] reaches, by its name *)
  locate : string -> string;                 (* the file [repo_path / file_path] is, by
                                                its name *)
  worktree_after : GitAction -> Repo -> gmap string string -> gmap string string;
                                             (* the files as the git command leaves them *)
  git_dir_file : GitDir blob -> string -> option string;
                                             (* the text of a file in [.git] *)
  git_dir_view : string -> string -> GitDir blob -> GitDir blob;
                                             (* [.git] after the file of the name was
                                                overwritten with the content *)
}.

(** The tool object and what it acts on.  A file has one name: its
    normalised path relative to the root of the repository when it lies
    below it, its absolute path otherwise.  [files] holds the regular files
    outside the directory [.git]; of that directory the state holds what git
    and the tool make of it. *)
Record State `{Codecs} := {
  session : option Session;        (* [self.session] *)
  repo : Repo;                     (* [self.repo] *)
  files : gmap string string;      (* regular files outside [.git], by name *)
  session_file : option blob;      (* [.git/ai-tool-session.pickle] *)
  config_file : option string;     (* [.git/ai-tool-config.json] *)
  log : list string;               (* records of [self.logger] *)
  stdout : list string;            (* lines of [print] *)
}.

(** ** The state-and-exception monad of the tool's methods

    A raised exception keeps the state reached so far: Python does not undo
    the effects of the statements already run. *)

Definition M `{Codecs} (A : Type) : Type := State -> Result A * State.

Definition ret `{Codecs} {A} (a : A) : M A := fun st => (Ok a, st).

Definition raise `{Codecs} {A} (e : Exn) : M A := fun st => (Raise e, st).

Definition bind `{Codecs} {A B} (m : M A) (k : A -> M B) : M B :=
  fun st =>
    match m st with
    | (Ok a, st') => k a st'
    | (Raise e, st') => (Raise e, st')
    end.

(** [try: m  except Exception as e: handler e] *)
Definition try_except `{Codecs} {A} (m : M A) (handler : Exn -> M A) : M A :=
  fun st =>
    match m st with
    | (Ok a, st') => (Ok a, st')
    | (Raise e, st') => handler e st'
    end.

(** [try: m  except <class> as e: handler e], for the class recognised by
    [catches]; any other exception passes through. *)
Definition try_except_only `{Codecs} {A} (catches : Exn -> bool)
    (m : M A) (handler : Exn -> M A) : M A :=
  fun st =>
    match m st with
    | (Ok a, st') => (Ok a, st')
    | (Raise e, st') => if catches e then handler e st' else (Raise e, st')
    end.

Definition gets `{Codecs} {A} (f : State -> A) : M A := fun st => (Ok (f st), st).

Definition modify `{Codecs} (f : State -> State) : M unit := fun st => (Ok tt, f st).

Declare Scope py_scope.
Delimit Scope py_scope with py.
Notation "'let!' x := m 'in' k" := (bind m (fun x => k))
  (at level 10, x name, m at level 100, k at level 200) : py_scope.
Notation "m ;; k" := (bind m (fun _ => k))
  (at level 100, k at level 200, right associativity) : py_scope.
Local Open Scope py_scope.

(** ** State updates *)

Section Updates.
Context `{Codecs}.

Definition set_session (s : option Session) (st : State) : State :=
  {| session := s; repo := repo st; files := files st;
     session_file := session_file st; config_file := config_file st;
     log := log st; stdout := stdout st |}.

Definition set_repo (r : Repo) (st : State) : State :=
  {| session := session st; repo := r; files := files st;
     session_file := session_file st; config_file := config_file st;
     log := log st; stdout := stdout st |}.

Definition set_files (f : gmap string string) (st : State) : State :=
  {| session := session st; repo := repo st; files := f;
     session_file := session_file st; config_file := config_file st;
     log := log st; stdout := stdout st |}.

Definition set_session_file (b : option blob) (st : State) : State :=
  {| session := session st; repo := repo st; files := files st;
     session_file := b; config_file := config_file st;
     log := log st; stdout := stdout st |}.

Definition set_config_file (c : option string) (st : State) : State :=
  {| session := session st; repo := repo st; files := files st;
     session_file := session_file st; config_file := c;
     log := log st; stdout := stdout st |}.

Definition git_dir (st : State) : GitDir blob :=
  (repo st, session_file st, config_file st).

Definition set_git_dir (g : GitDir blob) (st : State) : State :=
  {| session := session st; repo := fst (fst g); files := files st;
     session_file := snd (fst g); config_file := snd g;
     log := log st; stdout := stdout st |}.

Definition add_log (line : string) (st : State) : State :=
  {| session := session st; repo := repo st; files := files st;
     session_file := session_file st; config_file := config_file st;
     log := log st ++ [line]; stdout := stdout st |}.

Definition add_stdout (line : string) (st : State) : State :=
  {| session := session st; repo := repo st; files := files st;
     session_file := session_file st; config_file := config_file st;
     log := log st; stdout := stdout st ++ [line] |}.

(** [self.logger.error(msg)] and [self.logger.warning(msg)] *)
Definition logger_error (msg : string) : M unit := modify (add_log ("ERROR - " +:+ msg)).
Definition logger_warning (msg : string) : M unit := modify (add_log ("WARNING - " +:+ msg)).

(** [print(msg)] *)
Definition print (msg : string) : M unit := modify (add_stdout msg).

End Updates.

(** ** The version-control capability (GitPython) *)

Module Git.
Section Git.
Context `{Codecs}.
Variable env : Env.

Definition with_heads (h : gmap string string) (r : Repo) : Repo :=
  {| heads := h; HEAD := HEAD r; dirty := dirty r; merging := merging r;
     merge_head := merge_head r |}.

Definition with_HEAD (b : option string) (r : Repo) : Repo :=
  {| heads := heads r; HEAD := b; dirty := dirty r; merging := merging r;
     merge_head := merge_head r |}.

Definition with_merge (d m : bool) (r : Repo) : Repo :=
  {| heads := heads r; HEAD := HEAD r; dirty := d; merging := m; merge_head := m |}.

(** [name in repo.heads] *)
Definition has_head (name : string) : M bool :=
  gets (fun st => bool_decide (is_Some (heads (repo st) !! name))).

(** [repo.active_branch]: raises [TypeError] on a detached HEAD. *)
Definition active_branch : M string :=
  fun st =>
    match HEAD (repo st) with
    | Some b => (Ok b, st)
    | None => (Raise (TypeError "HEAD is a detached symbolic reference"), st)
    end.

(** [repo.create_head(name)]: a new branch at the commit of HEAD. *)
Definition create_head (name : string) : M unit :=
  fun st =>
    let r := repo st in
    match HEAD r ≫= (fun b => heads r !! b) with
    | Some tip =>
        if create_head_fails env name || bool_decide (is_Some (heads r !! name))
        then (Raise (GitCommandError ("git branch " +:+ name +:+ " failed")), st)
        else (Ok tt, set_repo (with_heads (<[name := tip]> (heads r)) r) st)
    | None => (Raise (GitCommandError "not a valid object name: HEAD"), st)
    end.

(** The commit of HEAD, when HEAD is on a branch. *)
Definition head_commit (r : Repo) : option string :=
  HEAD r ≫= (fun b => heads r !! b).

(** The files after [git checkout name]: a branch at the commit of HEAD
    has the tree of HEAD, and the files stay as they are; any other branch
    brings its own tree. *)
Definition checkout_files (name : string) (st : State) : gmap string string :=
  let r := repo st in
  match head_commit r with
  | Some tip =>
      if bool_decide (heads r !! name = Some tip) then files st
      else worktree_after env (DoCheckout name) r (files st)
  | None => worktree_after env (DoCheckout name) r (files st)
  end.

(** [head.checkout()]: git refuses to switch branches while the index holds
    unmerged paths, and for an unknown branch. *)
Definition checkout (name : string) : M unit :=
  fun st =>
    let r := repo st in
    if checkout_fails env name || merging r
       || negb (bool_decide (is_Some (heads r !! name)))
    then (Raise (GitCommandError ("git checkout " +:+ name +:+ " failed")), st)
    else (Ok tt, set_files (checkout_files name st)
                   (set_repo (with_HEAD (Some name) r) st)).

(** [repo.is_dirty()] *)
Definition is_dirty : M bool := gets (fun st => dirty (repo st)).

(** The files as a git command that rewrites the working tree leaves them. *)
Definition rewritten (action : GitAction) (st : State) : gmap string string :=
  worktree_after env action (repo st) (files st).

(** [repo.git.merge(branch)] into the checked-out branch: the files become
    those of the merge; a merge that stops on a conflict leaves its partial
    result in them, a merge git refuses leaves them alone. *)
Definition merge (branch : string) : M unit :=
  fun st =>
    let r := repo st in
    let merged := set_files (rewritten (DoMerge branch) st) st in
    match merge_outcome env branch, HEAD r with
    | Merged tip, Some cur =>
        (Ok tt, set_repo (with_heads (<[cur := tip]> (heads r)) r) merged)
    | Merged _, None => (Ok tt, merged)   (* a detached HEAD moves, no branch does *)
    | MergeFailed msg in_progress, _ =>
        (Raise (GitCommandError msg),
         if in_progress then set_repo (with_merge true true r) merged else st)
    end.

(** [repo.git.merge('--abort')]: restores the state before the merge; with no
    merge in progress git exits with "There is no merge to abort (MERGE_HEAD
    missing)", which GitPython raises as [GitCommandError]. *)
Definition merge_abort : M unit :=
  fun st =>
    let r := repo st in
    if merge_head r
    then (Ok tt, set_repo (with_merge false false r)
                   (set_files (rewritten DoAbort st) st))
    else (Raise (GitCommandError
                   "fatal: There is no merge to abort (MERGE_HEAD missing)."), st).

End Git.
End Git.

(** ** [GitToolConfig] and [AIGitTool] *)

Definition DEFAULT_PATTERNS : Json :=
  JArr [JStr "package.json"; JStr "requirements.txt"; JStr "go.mod";
        JStr "Cargo.toml"; JStr "setup.py"].

(** [obj.get(key, default)]: only a dict has the method. *)
Definition get_method (obj : Json) (key : string) (default : Json) : Result Json :=
  match obj with
  | JObj members =>
      Ok (match PyDict.get key members with Some v => v | None => default end)
  | _ => Raise (AttributeError "object has no attribute 'get'")
  end.

Definition docs_dir : string := "ai-tool-docs".

(** [self.docs_dir / f"{branch_name}.md"] *)
Definition doc_path (branch_name : string) : string :=
  docs_dir +:+ "/" +:+ branch_name +:+ ".md".

Definition doc_header (branch_name : string) : string :=
  "# AI-Assisted Changes: " +:+ branch_name +:+ PyStr.nl +:+ PyStr.nl
  +:+ "## Change History" +:+ PyStr.nl +:+ PyStr.nl
  +:+ "| Timestamp | Prompt | Changes | Commit |" +:+ PyStr.nl
  +:+ "|-----------|---------|----------|--------|" +:+ PyStr.nl.

Definition doc_row (timestamp prompt changes_text commit_hash : string) : string :=
  "| " +:+ timestamp +:+ " | " +:+ prompt +:+ " | " +:+ changes_text
  +:+ " | " +:+ commit_hash +:+ " |" +:+ PyStr.nl.

Definition append_history (r : ChangeRecord) (s : Session) : Session :=
  {| branch := branch s; context_files := context_files s;
     changes_history := changes_history s ++ [r]; created_at := created_at s |}.

Section Tool.
Context `{Codecs}.
Variable env : Env.

(** *** Files *)

(** The text of the regular file of a name, if there is one. *)
Definition file_named (st : State) (name : string) : option string :=
  if inside_git name then git_dir_file env (git_dir st) name
  else files st !! name.

(** The file of a name holds [content] from now on: a file in [.git] is
    one that git or the tool reads. *)
Definition store (name content : string) (st : State) : State :=
  if inside_git name then set_git_dir (git_dir_view env name content (git_dir st)) st
  else set_files (<[name := content]> (files st)) st.

(** The text of the regular file that [path] reaches, as the process opens
    it. *)
Definition file_at (st : State) (path : string) : option string :=
  file_named st (resolve env path).

(** [with open(name, 'w') as f: f.write(content)], for the file of a name. *)
Definition write_file (name content : string) : M unit :=
  fun st =>
    match write_outcome env name with
    | WrOk => (Ok tt, store name content st)
    | WrOpenFails => (Raise (OSError ("cannot open " +:+ name)), st)
    | WrTorn residue =>
        (Raise (OSError ("write failed: " +:+ name)), store name residue st)
    end.

(** [with open(name, 'a') as f: f.write(content)], for the file of a name. *)
Definition append_file (name content : string) : M unit :=
  fun st =>
    let old := default "" (file_named st name) in
    match write_outcome env name with
    | WrOk => (Ok tt, store name (old +:+ content) st)
    | WrOpenFails => (Raise (OSError ("cannot open " +:+ name)), st)
    | WrTorn residue =>
        (Raise (OSError ("write failed: " +:+ name)), store name (old +:+ residue) st)
    end.

(** [path.is_file()] *)
Definition is_file (path : string) : M bool :=
  gets (fun st => bool_decide (is_Some (file_at st path))).

(** [with open(path) as f: f.read()]: a missing file raises
    [FileNotFoundError], an [OSError]; a file that cannot be opened or
    decoded raises what the system decides. *)
Definition read_file (path : string) : M string :=
  fun st =>
    match file_at st path with
    | Some content =>
        if read_fails env path then (Raise (read_error env path), st)
        else (Ok content, st)
    | None => (Raise (OSError ("no such file: " +:+ path)), st)
    end.

(** [full_path.parent.mkdir(parents=True, exist_ok=True)], for the file of
    a name. *)
Definition mkdir_parent (path : string) : M unit :=
  fun st =>
    if mkdir_fails env path then (Raise (OSError ("cannot create parent of " +:+ path)), st)
    else (Ok tt, st).

(** *** [GitToolConfig] *)

(** [GitToolConfig._load_config] *)
Definition _load_config : M Json :=
  fun st =>
    match config_file st with
    | Some text =>
        if config_read_fails env then (Raise (OSError "cannot open ai-tool-config.json"), st)
        else (json_load text, st)
    | None => (Ok (JObj []), st)
    end.

(** [GitToolConfig.__init__]: the value given to [self.structural_patterns]. *)
Definition GitToolConfig_init : M Json :=
  let! config := _load_config in
  fun st => (get_method config "structural_patterns" DEFAULT_PATTERNS, st).

(** *** Session store *)

(** [AIGitTool._load_session] *)
Definition _load_session : M (option Session) :=
  fun st =>
    match session_file st with
    | Some b =>
        let loaded :=
          if session_read_fails env then Raise (OSError "cannot open ai-tool-session.pickle")
          else pickle_load b in
        match loaded with
        | Ok s => (Ok (Some s), st)
        | Raise e => (Ok None, add_log ("ERROR - Failed to load session: " +:+ exn_str e) st)
        end
    | None => (Ok None, st)
    end.

(** [AIGitTool._save_session]; a [Session] object is always truthy. *)
Definition _save_session : M unit :=
  fun st =>
    match session st with
    | Some s =>
        match session_write_outcome env with
        | WrOk => (Ok tt, set_session_file (Some (pickle_dump s)) st)
        | WrOpenFails => (Raise (OSError "cannot open ai-tool-session.pickle"), st)
        | WrTorn residue =>
            (Raise (OSError "write failed: ai-tool-session.pickle"),
             set_session_file (Some residue) st)
        end
    | None => (Ok tt, st)
    end.

(** *** Lifecycle *)

(** [AIGitTool._init_documentation] *)
Definition _init_documentation (branch_name : string) : M unit :=
  write_file (doc_path branch_name) (doc_header branch_name).

Definition new_session (branch_name : string) : Session :=
  {| branch := branch_name; context_files := ∅; changes_history := [];
     created_at := now_str env |}.

(** [AIGitTool.create_branch] *)
Definition create_branch (branch_name : string) : M bool :=
  try_except
    (let! exists_ := Git.has_head branch_name in
     if exists_ then
       logger_error ("Branch " +:+ branch_name +:+ " already exists") ;;
       ret false
     else
       let! current := Git.active_branch in
       Git.create_head env branch_name ;;
       Git.checkout env branch_name ;;
       modify (set_session (Some (new_session branch_name))) ;;
       _save_session ;;
       _init_documentation branch_name ;;
       ret true)
    (fun e =>
       logger_error ("Failed to create branch: " +:+ exn_str e) ;;
       ret false).

(** [AIGitTool.update_documentation] *)
Definition update_documentation (prompt : string) (changes : PyDict.t string)
    (commit_hash : string) : M unit :=
  let! active := gets session in
  match active with
  | None => logger_warning "No active session, skipping documentation update"
  | Some s =>
      try_except
        (let path := doc_path (branch s) in
         let timestamp := now_stamp env in
         let changes_summary :=
           map (fun file_path => file_path +:+ " (modified)") (PyDict.keys changes) in
         let changes_text := PyStr.join PyStr.nl changes_summary in
         append_file path (doc_row timestamp prompt changes_text commit_hash) ;;
         modify (fun st =>
                   set_session
                     (append_history
                        {| cr_timestamp := timestamp; cr_prompt := prompt;
                           cr_changes := changes_summary; cr_commit := commit_hash |}
                        <$> session st) st) ;;
         _save_session)
        (fun e => logger_error ("Failed to update documentation: " +:+ exn_str e))
  end.

(** [AIGitTool.get_structural_files] for the patterns of the configuration. *)
Fixpoint read_matches (paths : list string) (files_content : PyDict.t string)
  : M (PyDict.t string) :=
  match paths with
  | [] => ret files_content
  | path :: rest =>
      let! regular := is_file path in
      if regular then
        let! content := read_file path in
        read_matches rest (PyDict.set path content files_content)
      else read_matches rest files_content
  end.

(** [self.repo_path.rglob(pattern)]: [pathlib] raises [NotImplementedError]
    for a pattern with a root, and rejects some relative patterns too. *)
Definition glob_paths (pattern : string) : Result (list string) :=
  if PyStr.startswith "/" pattern
  then Raise (NotImplementedError "Non-relative patterns are unsupported")
  else match pattern_rejected env pattern with
       | Some e => Raise e
       | None => Ok (rglob env pattern)
       end.

Fixpoint collect_patterns (patterns : list string) (files_content : PyDict.t string)
  : M (PyDict.t string) :=
  match patterns with
  | [] => ret files_content
  | pattern :: rest =>
      let! paths := (fun st => (glob_paths pattern, st)) in
      let! files_content' := read_matches paths files_content in
      collect_patterns rest files_content'
  end.

Definition get_structural_files (structural_patterns : list string)
  : M (PyDict.t string) :=
  collect_patterns structural_patterns [].

(** [AIGitTool.apply_changes] *)
Fixpoint write_changes (items : list (string * string)) : M unit :=
  match items with
  | [] => ret tt
  | (file_path, content) :: rest =>
      let full_path := locate env file_path in
      mkdir_parent full_path ;;
      write_file full_path content ;;
      write_changes rest
  end.

Definition apply_changes (changes : PyDict.t string) : M bool :=
  try_except
    (write_changes changes ;; ret true)
    (fun e => logger_error ("Failed to apply changes: " +:+ exn_str e) ;; ret false).

(** [self.session.branch]: [AttributeError] when [self.session] is [None]. *)
Definition session_branch : M string :=
  fun st =>
    match session st with
    | Some s => (Ok (branch s), st)
    | None => (Raise (AttributeError "'NoneType' object has no attribute 'branch'"), st)
    end.

Definition conflict_guidance : list string :=
  ["To resolve conflicts:";
   "1. Check status with 'git status'";
   "2. Resolve conflicts in the marked files";
   "3. Add resolved files with 'git add'";
   "4. Complete merge with 'git commit'"].

Fixpoint print_all (lines : list string) : M unit :=
  match lines with
  | [] => ret tt
  | l :: rest => print l ;; print_all rest
  end.

(** [AIGitTool.merge_to_main] *)
Definition merge_to_main : M bool :=
  try_except
    (let! has_main := Git.has_head "main" in
     if negb has_main then
       logger_error "Main branch does not exist" ;;
       ret false
     else
       let! current := Git.active_branch in
       let! is_dirty := Git.is_dirty in
       if is_dirty then
         logger_error "Working directory is not clean. Commit or stash changes first." ;;
         ret false
       else
         try_except_only is_GitCommandError
           (Git.checkout env "main" ;;
            let! b := session_branch in
            Git.merge env b ;;
            ret true)
           (fun e =>
              (if PyStr.contains "CONFLICT" (exn_str e) then
                 logger_error "Merge conflict detected. Please resolve conflicts manually." ;;
                 print_all conflict_guidance
               else logger_error ("Merge failed: " +:+ exn_str e)) ;;
              Git.merge_abort env ;;
              Git.checkout env current ;;
              ret false))
    (fun e =>
       logger_error ("Failed to merge to main: " +:+ exn_str e) ;;
       Git.merge_abort env ;;
       ret false).

End Tool.

(** ** What [apply_changes] leaves on disk *)

Section Writes.
Context `{Codecs}.
Variable env : Env.

(** The entries with the name of the file each key reaches. *)
Definition located (items : list (string * string)) : list (string * string) :=
  map (fun item => (locate env (fst item), snd item)) items.

(** The write of one entry succeeds. *)
Definition write_ok (file_path : string) : bool :=
  negb (mkdir_fails env (locate env file_path))
  && match write_outcome env (locate env file_path) with WrOk => true | _ => false end.

(** The state after every entry of [items], a list of names and contents,
    has been written in order. *)
Definition stored (items : list (string * string)) (st : State) : State :=
  fold_left (fun st item => store env (fst item) (snd item) st) items st.

(** The files after every entry of [items] has been written in order, when
    none is in [.git]. *)
Definition written (items : list (string * string)) (fs : gmap string string)
  : gmap string string :=
  fold_left (fun fs item => <[fst item := snd item]> fs) items fs.

(** What a failed write to the file of a name leaves: nothing new when the
    directory or [open] failed, the residue when a write failed after
    [open]. *)
Definition failed_store (name : string) (st : State) : State :=
  if mkdir_fails env name then st
  else match write_outcome env name with
       | WrTorn residue => store env name residue st
       | _ => st
       end.

(** The content of the last entry of [items] for a name. *)
Definition last_write (name : string) (items : list (string * string))
  : option string :=
  snd <$> List.find (fun item => String.eqb (fst item) name) (rev items).

(** No entry of [items] is for a file in [.git]. *)
Definition outside_git (items : list (string * string)) : bool :=
  forallb (fun item => negb (inside_git (fst item))) items.

(** [open] and [read] succeed on the file. *)
Definition readable (path : string) : bool := negb (read_fails env path).

(** [pathlib] accepts the pattern. *)
Definition accepted (pattern : string) : bool :=
  match glob_paths env pattern with Ok _ => true | Raise _ => false end.

(** The paths a pattern yields; none when [pathlib] refuses it. *)
Definition glob_matched (pattern : string) : list string :=
  match glob_paths env pattern with Ok paths => paths | Raise _ => [] end.

(** The matched paths of all patterns, in the order they are visited. *)
Definition matched (structural_patterns : list string) : list string :=
  flat_map glob_matched structural_patterns.

(** The content of the file of a name after the writes of [items], when it
    held [before]: that of the last write to it. *)
Definition after_writes (items : list (string * string)) (name : string)
    (before : option string) : option string :=
  match last_write name items with
  | Some content => Some content
  | None => before
  end.

Definition regular (st : State) (paths : list string) : list string :=
  List.filter (fun path => bool_decide (is_Some (file_at env st path))) paths.

Definition contents (st : State) (paths : list string) (d : PyDict.t string)
  : PyDict.t string :=
  fold_left (fun d path => PyDict.set path (default "" (file_at env st path)) d) paths d.

End Writes.

(** ** A concrete instance for the examples *)

Definition record_tuple (r : ChangeRecord) : string * string * list string * string :=
  (cr_timestamp r, cr_prompt r, cr_changes r, cr_commit r).

Definition tuple_record (t : string * string * list string * string) : ChangeRecord :=
  let '(ts, p, c, h) := t in
  {| cr_timestamp := ts; cr_prompt := p; cr_changes := c; cr_commit := h |}.

Definition session_tuple (s : Session)
  : string * gset string * list (string * string * list string * string) * string :=
  (branch s, context_files s, map record_tuple (changes_history s), created_at s).

Definition tuple_session
    (t : string * gset string * list (string * string * list string * string) * string)
  : Session :=
  let '(b, c, h, t0) := t in
  {| branch := b; context_files := c; changes_history := map tuple_record h;
     created_at := t0 |}.

(** A decoder for the documents of the examples: it reads the empty object,
    the empty array and [null], and rejects the other texts of the examples
    with the message of [json.load]: text that opens an object and goes on
    without a quoted name, and text that starts no value. *)
Definition example_json_load (text : string) : Result Json :=
  if String.eqb text "{}" then Ok (JObj [])
  else if String.eqb text "[]" then Ok (JArr [])
  else if String.eqb text "null" then Ok JNull
  else if PyStr.startswith "{" text then
    Raise (JSONDecodeError
             "Expecting property name enclosed in double quotes: line 1 column 2 (char 1)")
  else Raise (JSONDecodeError "Expecting value: line 1 column 1 (char 0)").

(** Sessions are pickled to a bit string, here through the encoding of
    countable types. *)
#[export] Instance example_codecs : Codecs := {|
  blob := positive;
  pickle_dump s := encode (session_tuple s);
  pickle_load b :=
    match decode b with
    | Some t => Ok (tuple_session t)
    | None => Raise (UnpicklingError "invalid load key")
    end;
  json_load := example_json_load;
|}.

(** An environment in which nothing fails, and the variations of it. *)
Definition example_env (merge_ : MergeOutcome) (write_ : string -> WriteOutcome string)
    (read_fails_ : string -> bool) (config_read_fails_ : bool)
    (rglob_ : string -> list string) : Env :=
  {| now_str := "2025-01-01 12:00:00.000000";
     now_stamp := "2025-01-01 12:00:00";
     create_head_fails := fun _ => false;
     checkout_fails := fun _ => false;
     merge_outcome := fun _ => merge_;
     mkdir_fails := fun _ => false;
     write_outcome := write_;
     read_fails := read_fails_;
     read_error := fun path => OSError ("cannot read " +:+ path);
     session_write_outcome := WrOk;
     session_read_fails := false;
     config_read_fails := config_read_fails_;
     rglob := rglob_;
     pattern_rejected := fun _ => None;
     resolve := path_str;
     locate := path_str;
     worktree_after := fun _ _ fs => fs;
     git_dir_file := fun _ _ => None;
     git_dir_view := fun _ _ g => g |}.

Definition calm_env : Env :=
  example_env (Merged "c2") (fun _ => WrOk) (fun _ => false) false (fun _ => []).

(** The directory [ai-tool-docs/feature] does not exist, so the log of a
    branch [feature/x] cannot be opened. *)
Definition no_docs_subdir_env : Env :=
  example_env (Merged "c2")
    (fun path => if String.eqb path "ai-tool-docs/feature/x.md" then WrOpenFails else WrOk)
    (fun _ => false) false (fun _ => []).

(** The documentation log of branch [feat] cannot be opened. *)
Definition no_doc_log_env : Env :=
  example_env (Merged "c2")
    (fun path => if String.eqb path "ai-tool-docs/feat.md" then WrOpenFails else WrOk)
    (fun _ => false) false (fun _ => []).

(** [b.py] cannot be written. *)
Definition readonly_b_env : Env :=
  example_env (Merged "c2")
    (fun path => if String.eqb path "b.py" then WrOpenFails else WrOk)
    (fun _ => false) false (fun _ => []).

(** The configuration file cannot be opened. *)
Definition config_unreadable_env : Env :=
  example_env (Merged "c2") (fun _ => WrOk) (fun _ => false) true (fun _ => []).

(** Two manifests match; the one in [sub] cannot be read. *)
Definition unreadable_manifest_env : Env :=
  example_env (Merged "c2") (fun _ => WrOk)
    (fun path => String.eqb path "sub/requirements.txt") false
    (fun pattern =>
       if String.eqb pattern "requirements.txt"
       then ["requirements.txt"; "sub/requirements.txt"] else []).

(** Two manifests match; the one in [sub] holds bytes that are no text. *)
Definition binary_manifest_env : Env :=
  {| now_str := now_str unreadable_manifest_env;
     now_stamp := now_stamp unreadable_manifest_env;
     create_head_fails := create_head_fails unreadable_manifest_env;
     checkout_fails := checkout_fails unreadable_manifest_env;
     merge_outcome := merge_outcome unreadable_manifest_env;
     mkdir_fails := mkdir_fails unreadable_manifest_env;
     write_outcome := write_outcome unreadable_manifest_env;
     read_fails := read_fails unreadable_manifest_env;
     read_error := fun _ =>
       UnicodeDecodeError
         "'utf-8' codec can't decode byte 0xff in position 0: invalid start byte";
     session_write_outcome := session_write_outcome unreadable_manifest_env;
     session_read_fails := session_read_fails unreadable_manifest_env;
     config_read_fails := config_read_fails unreadable_manifest_env;
     rglob := rglob unreadable_manifest_env;
     pattern_rejected := pattern_rejected unreadable_manifest_env;
     resolve := resolve unreadable_manifest_env;
     locate := locate unreadable_manifest_env;
     worktree_after := worktree_after unreadable_manifest_env;
     git_dir_file := git_dir_file unreadable_manifest_env;
     git_dir_view := git_dir_view unreadable_manifest_env |}.

(** The merge stops on a conflict and leaves the merge in progress. *)
Definition conflict_env : Env :=
  example_env (MergeFailed "CONFLICT (content): Merge conflict in a.py" true)
    (fun _ => WrOk) (fun _ => false) false (fun _ => []).

(** git refuses the merge and starts none. *)
Definition refused_merge_env : Env :=
  example_env (MergeFailed "fatal: refusing to merge unrelated histories" false)
    (fun _ => WrOk) (fun _ => false) false (fun _ => []).

Definition main_only : Repo :=
  {| heads := {["main" := "c0"]}; HEAD := Some "main"; dirty := false;
     merging := false; merge_head := false |}.

Definition on_feat : Repo :=
  {| heads := <["feat" := "c1"]> {["main" := "c0"]}; HEAD := Some "feat";
     dirty := false; merging := false; merge_head := false |}.

Definition feat_session : Session :=
  {| branch := "feat"; context_files := {["README.md"]}; changes_history := [];
     created_at := "2025-01-01 11:00:00.000000" |}.

Definition example_state (s : option Session) (r : Repo) (fs : gmap string string)
    (config : option string) : State :=
  {| session := s; repo := r; files := fs; session_file := None;
     config_file := config; log := []; stdout := [] |}.

(** No session, nothing persisted, only [main]. *)
Definition fresh_state : State := example_state None main_only ∅ None.

(** A session on branch [feat]. *)
Definition feat_state : State := example_state (Some feat_session) on_feat ∅ None.

(** The configuration file holds text that is not JSON. *)
Definition broken_config_state : State :=
  example_state None main_only ∅ (Some "{not json").

(** The configuration file holds the empty object. *)
Definition empty_config_state : State :=
  example_state None main_only ∅ (Some "{}").

(** Two manifests in the working tree. *)
Definition manifests_state : State :=
  example_state None main_only
    (<["sub/requirements.txt" := "flask"]> {["requirements.txt" := "requests"]}) None.

Definition three_edits : PyDict.t string :=
  [("a.py", "A"); ("b.py", "B"); ("c.py", "C")].

(** ** Further notions about the parser's result *)

(** The last section of [sections] with located fences whose first line,
    trimmed, is [k]. *)
Definition latest_section (k : string) (sections : list string) : option string :=
  List.find
    (fun sec => fences_located sec && String.eqb (section_filename sec) k)
    (rev sections).

(** [s] is empty or starts with a character that is not white space. *)
Definition starts_clean (s : string) : Prop :=
  match s with
  | "" => True
  | String c _ => PyStr.isspace c = false
  end.

(** ** [Session.to_dict] and [Session.from_dict] *)

(** The values of the dict of a session, as the annotations give them. *)
Inductive Field :=
| FStr (s : string)
| FPaths (paths : list string)
| FHistory (history : list ChangeRecord).

(** [Session.to_dict]; [list(self.context_files)] lists the set in the order
    of its iteration. *)
Definition to_dict (self : Session) : PyDict.t Field :=
  [("branch", FStr (branch self));
   ("context_files", FPaths (elements (context_files self)));
   ("changes_history", FHistory (changes_history self));
   ("created_at", FStr (created_at self))].

(** The outcome of [Session.from_dict]: the session, the [KeyError] of
    [data[key]], or [Unannotated] for a dict whose values do not have the
    annotated types, which the typed record cannot hold. *)
Inductive FromDict :=
| Built (s : Session)
| KeyError (key : string)
| Unannotated.

(** [Session.from_dict]: the keyword arguments are evaluated in order. *)
Definition from_dict (data : PyDict.t Field) : FromDict :=
  match PyDict.get "branch" data with
  | None => KeyError "branch"
  | Some (FStr b) =>
      match PyDict.get "context_files" data with
      | None => KeyError "context_files"
      | Some (FPaths c) =>
          match PyDict.get "changes_history" data with
          | None => KeyError "changes_history"
          | Some (FHistory h) =>
              match PyDict.get "created_at" data with
              | None => KeyError "created_at"
              | Some (FStr t) =>
                  Built {| branch := b; context_files := list_to_set c;
                           changes_history := h; created_at := t |}
              | Some _ => Unannotated
              end
          | Some _ => Unannotated
          end
      | Some _ => Unannotated
      end
  | Some _ => Unannotated
  end.

Definition session_keys : list string :=
  ["branch"; "context_files"; "changes_history"; "created_at"].

(** ** [AIGitTool.clear_session] *)

(** The tool state together with the scratch directory [aigit] of the
    system's temporary directory, which is outside the repository. *)
Record Host `{Codecs} := {
  tool : State;
  scratch : bool;      (* the scratch directory exists *)
}.

Section Clear.
Context `{Codecs}.
(** What the world decides for [clear_session]: [unlink] of the session file
    raises, and [rmtree] cannot remove the scratch directory (with
    [ignore_errors=True] that is silent). *)
Variable unlink_fails : bool.
Variable rmtree_fails : bool.

Definition clear_session (h : Host) : Result unit * Host :=
  let st := tool h in
  match session_file st with
  | Some _ =>
      if unlink_fails then
        (Raise (OSError "cannot remove ai-tool-session.pickle"), h)
      else
        (Ok tt,
         {| tool := set_session None (set_session_file None st);
            scratch := scratch h && rmtree_fails |})
  | None =>
      (Ok tt,
       {| tool := set_session None st; scratch := scratch h && rmtree_fails |})
  end.

End Clear.

(** Both manifests can be read. *)
Definition manifests_env : Env :=
  example_env (Merged "c2") (fun _ => WrOk) (fun _ => false) false
    (fun pattern =>
       if String.eqb pattern "requirements.txt"
       then ["requirements.txt"; "sub/requirements.txt"] else []).

(** A session has been persisted and is active. *)
Definition persisted_host : Host :=
  {| tool := set_session_file (Some (pickle_dump feat_session)) feat_state;
     scratch := true |}.

(** ** Runs that do not return [True] *)


(** The record [update_documentation] builds for a prompt. *)
Definition change_record `{Codecs} (env : Env) (prompt : string)
    (changes : PyDict.t string) (commit_hash : string) : ChangeRecord :=
  {| cr_timestamp := now_stamp env; cr_prompt := prompt;
     cr_changes := map (fun file_path => file_path +:+ " (modified)")
                       (PyDict.keys changes);
     cr_commit := commit_hash |}.

(** The row it appends to the documentation log. *)
Definition change_row `{Codecs} (env : Env) (prompt : string)
    (changes : PyDict.t string) (commit_hash : string) : string :=
  doc_row (now_stamp env) prompt
    (PyStr.join PyStr.nl
       (map (fun file_path => file_path +:+ " (modified)") (PyDict.keys changes)))
    commit_hash.

(** ** The context commands of [AIGitREPL] *)

Definition with_context (c : gset string) (s : Session) : Session :=
  {| branch := branch s; context_files := c;
     changes_history := changes_history s; created_at := created_at s |}.

Section ContextCommands.
Context `{Codecs}.
Variable env : Env.
(** [(repo_path / file_path).exists()], as the operating system answers it
    for the path text. *)
Variable path_exists : string -> bool.

(** [AIGitREPL.cmd_add_context] *)
Definition cmd_add_context (args : string) : M unit :=
  let! active := gets session in
  match active with
  | None => print "No active session"
  | Some s =>
      if String.eqb args "" then print "Error: File path required"
      else
        let file_path := path_str args in
        if negb (path_exists file_path) then print ("File not found: " +:+ args)
        else
          modify (set_session
                    (Some (with_context ({[file_path]} ∪ context_files s) s))) ;;
          _save_session env ;;
          print ("Added to context: " +:+ args)
  end.

(** [AIGitREPL.cmd_rm_context] *)
Definition cmd_rm_context (args : string) : M unit :=
  let! active := gets session in
  match active with
  | None => print "No active session"
  | Some s =>
      if String.eqb args "" then print "Error: File path required"
      else if bool_decide (args ∈ context_files s) then
        modify (set_session (Some (with_context (context_files s ∖ {[args]}) s))) ;;
        _save_session env ;;
        print ("Removed from context: " +:+ args)
      else
        print "File is not in context" ;;
        print "Use 'show-context' to see current context files"
  end.

(** [AIGitREPL.cmd_clear_context] *)
Definition cmd_clear_context : M unit :=
  let! active := gets session in
  match active with
  | None => print "No active session"
  | Some s =>
      modify (set_session (Some (with_context ∅ s))) ;;
      _save_session env ;;
      print "Context cleared"
  end.

End ContextCommands.

(** ** The prompt command: context, request, parse, apply *)

(** [f"File: {file_path}\n{content}\n"] *)
Definition context_block (file_path content : string) : string :=
  "File: " +:+ file_path +:+ PyStr.nl +:+ content +:+ PyStr.nl.

(** The text sent to the backend. *)
Definition structured_prompt (context prompt : string) : string :=
  PyStr.join PyStr.nl
    [""; "Based on the following context and request, provide code changes in a structured format.";
     "Each change should be in the format:";
     "FILE: <filepath>";
     "```";
     "<entire file content with changes>";
     "```";
     "";
     "Context files:";
     context;
     "";
     "User request: " +:+ prompt;
     "";
     "Respond only with the file changes, using the format specified above.";
     ""].

(** The explanation [cmd_prompt] prints: the first piece of
    [text.split('FILE:', 1)], trimmed, when there is a second piece and the
    first is not blank. *)
Definition explanation (text : string) : option string :=
  match PyStr.split1 "FILE:" text with
  | first :: _ :: _ =>
      let e := PyStr.strip first in
      if String.eqb e "" then None else Some e
  | _ => None
  end.

(** States that differ in the log and in the printed lines only. *)
Definition same_data `{Codecs} (st st' : State) : Prop :=
  session st' = session st /\ repo st' = repo st /\ files st' = files st
  /\ session_file st' = session_file st /\ config_file st' = config_file st.

Section Prompt.
Context `{Codecs}.
Variable env : Env.
(** The generation backend: the decoded JSON answer to a prompt, or the
    exception [requests] raises. *)
Variable backend : string -> Result (PyDict.t string).
Variable path_exists : string -> bool.
(** [self.config.structural_patterns] *)
Variable structural_patterns : list string.

(** The loop of [_build_context] over the context files of the session. *)
Fixpoint read_context (paths : list string) (context_parts : list string)
  : M (list string) :=
  match paths with
  | [] => ret context_parts
  | file_path :: rest =>
      if path_exists file_path then
        let! content := read_file env file_path in
        read_context rest (context_parts ++ [context_block file_path content])
      else read_context rest context_parts
  end.

(** [self.session.context_files], listed in the order of iteration. *)
Definition session_context_files : M (list string) :=
  fun st =>
    match session st with
    | Some s => (Ok (elements (context_files s)), st)
    | None =>
        (Raise (AttributeError "'NoneType' object has no attribute 'context_files'"), st)
    end.

(** [AIGitTool._build_context] *)
Definition _build_context : M string :=
  let! structural_files := get_structural_files env structural_patterns in
  let context_parts :=
    map (fun item => context_block (fst item) (snd item)) structural_files in
  let! paths := session_context_files in
  let! context_parts' := read_context paths context_parts in
  ret (PyStr.join PyStr.nl context_parts').

(** [AIGitTool.make_ollama_request] *)
Definition make_ollama_request (prompt : string) : M (PyDict.t string) :=
  let! active := gets session in
  match active with
  | None => raise (ValueError "No active session")
  | Some _ =>
      let! context :=
        try_except _build_context
          (fun e => raise (ValueError ("Failed to build context: " +:+ exn_str e))) in
      try_except
        (fun st => (backend (structured_prompt context prompt), st))
        (fun e =>
           logger_error ("Ollama API request failed: " +:+ exn_str e) ;;
           raise e)
  end.

(** [AIGitREPL.cmd_prompt].  A missing [response] key raises [KeyError]
    inside the [try]; the handler prints it, which is written out here. *)
Definition cmd_prompt (args : string) : M unit :=
  let! active := gets session in
  match active with
  | None => print "Error: No active session. Use 'new-branch' first"
  | Some _ =>
      if String.eqb args "" then print "Error: Prompt required"
      else
        try_except
          (let! response := make_ollama_request args in
           match PyDict.get "response" response with
           | None => print "Error processing prompt: 'response'"
           | Some text =>
               match explanation text with
               | Some e => print (PyStr.nl +:+ e +:+ PyStr.nl)
               | None => ret tt
               end ;;
               let! changes := (fun st => (_parse_ollama_response response, st)) in
               let! applied := apply_changes env changes in
               if applied
               then print "Changes applied. Use 'review' to inspect changes."
               else ret tt
           end)
          (fun e => print ("Error processing prompt: " +:+ exn_str e))
  end.

End Prompt.

(** The backend answers every prompt with the response of the scenario,
    among other fields. *)
Definition scenario_backend (prompt : string) : Result (PyDict.t string) :=
  Ok [("model", "llama3"); ("response", scenario_response); ("done", "true")].

(** ** [GitToolConfig.save_config] and [update_structural_patterns] *)

Definition config_path : string := ".git/ai-tool-config.json".

Section ConfigUpdate.
Context `{Codecs}.
Variable env : Env.
(** The text [json.dump(config, f, indent=2)] writes. *)
Variable json_dump : Json -> string.

(** [{'structural_patterns': self.structural_patterns}] *)
Definition config_document (structural_patterns : list string) : Json :=
  JObj [("structural_patterns", JArr (map JStr structural_patterns))].

(** [GitToolConfig.save_config], for the patterns the object holds. *)
Definition save_config (structural_patterns : list string) : M unit :=
  fun st =>
    match write_outcome env config_path with
    | WrOk =>
        (Ok tt,
         set_config_file (Some (json_dump (config_document structural_patterns))) st)
    | WrOpenFails => (Raise (OSError ("cannot open " +:+ config_path)), st)
    | WrTorn residue =>
        (Raise (OSError ("write failed: " +:+ config_path)),
         set_config_file (Some residue) st)
    end.

(** [GitToolConfig.update_structural_patterns]: the patterns the object
    holds afterwards, and the run of [save_config]. *)
Definition update_structural_patterns (patterns : list string) (st : State)
  : list string * (Result unit * State) :=
  (patterns, save_config patterns st).

End ConfigUpdate.

(** A codec for the example of a saved configuration: it reads the text
    that [json.dump] writes for the document with the one pattern
    [Makefile], and otherwise behaves as the codec of the other examples. *)
Definition dq : string := String (ascii_of_nat 34) "".

Definition makefile_text : string :=
  PyStr.join PyStr.nl
    ["{";
     "  " +:+ dq +:+ "structural_patterns" +:+ dq +:+ ": [";
     "    " +:+ dq +:+ "Makefile" +:+ dq;
     "  ]";
     "}"].

Definition makefile_codecs : Codecs := {|
  blob := positive;
  pickle_dump s := encode (session_tuple s);
  pickle_load b :=
    match decode b with
    | Some t => Ok (tuple_session t)
    | None => Raise (UnpicklingError "invalid load key")
    end;
  json_load text :=
    if String.eqb text makefile_text
    then Ok (JObj [("structural_patterns", JArr [JStr "Makefile"])])
    else example_json_load text;
|}.

Definition makefile_json_dump (document : Json) : string := makefile_text.

Definition makefile_env : @Env makefile_codecs :=
  {| now_str := "2025-01-01 12:00:00.000000";
     now_stamp := "2025-01-01 12:00:00";
     create_head_fails := fun _ => false;
     checkout_fails := fun _ => false;
     merge_outcome := fun _ => Merged "c2";
     mkdir_fails := fun _ => false;
     write_outcome := fun _ => WrOk;
     read_fails := fun _ => false;
     read_error := fun path => OSError ("cannot read " +:+ path);
     session_write_outcome := WrOk;
     session_read_fails := false;
     config_read_fails := false;
     rglob := fun _ => [];
     pattern_rejected := fun _ => None;
     resolve := path_str;
     locate := path_str;
     worktree_after := fun _ _ fs => fs;
     git_dir_file := fun _ _ => None;
     git_dir_view := fun _ _ g => g |}.

Definition makefile_state : @State makefile_codecs :=
  {| session := None; repo := main_only; files := ∅; session_file := None;
     config_file := Some "{}"; log := []; stdout := [] |}.

(** Two sections for the same file. *)
Definition duplicate_response : string :=
  PyStr.join PyStr.nl
    ["FILE: a.py"; "```"; "old"; "```"; "FILE: a.py"; "```"; "new"; "```"].

(** Two sections for one file, named [a.py] and [./a.py]. *)
Definition alias_response : string :=
  PyStr.join PyStr.nl
    ["FILE: a.py"; "```"; "A"; "```"; "FILE: ./a.py"; "```"; "B"; "```"].

Definition alias_backend (prompt : string) : Result (PyDict.t string) :=
  Ok [("response", alias_response)].

(** One section for the file [.git/HEAD]. *)
Definition head_response : string :=
  PyStr.join PyStr.nl ["FILE: .git/HEAD"; "```"; "junk"; "```"].

Definition head_backend (prompt : string) : Result (PyDict.t string) :=
  Ok [("response", head_response)].

(** Text written over [.git/HEAD] that names no branch leaves git without a
    checked-out branch. *)
Definition head_clobber_env : Env :=
  {| now_str := now_str calm_env;
     now_stamp := now_stamp calm_env;
     create_head_fails := create_head_fails calm_env;
     checkout_fails := checkout_fails calm_env;
     merge_outcome := merge_outcome calm_env;
     mkdir_fails := mkdir_fails calm_env;
     write_outcome := write_outcome calm_env;
     read_fails := read_fails calm_env;
     read_error := read_error calm_env;
     session_write_outcome := session_write_outcome calm_env;
     session_read_fails := session_read_fails calm_env;
     config_read_fails := config_read_fails calm_env;
     rglob := rglob calm_env;
     pattern_rejected := pattern_rejected calm_env;
     resolve := resolve calm_env;
     locate := locate calm_env;
     worktree_after := worktree_after calm_env;
     git_dir_file := git_dir_file calm_env;
     git_dir_view := fun name content g =>
       if String.eqb name ".git/HEAD"
       then (Git.with_HEAD None (fst (fst g)), snd (fst g), snd g)
       else g |}.

(** Every path exists. *)
Definition all_exist (path : string) : bool := true.

(** No context file exists any more. *)
Definition none_exist (path : string) : bool := false.

(** The marker [cmd_prompt] splits on to find the explanation: without the
    space the parser asks for. *)
Definition EXPLAIN_MARK : string := "FILE:".

(** Prose only, no marker. *)
Definition prose_response : string := "I cannot help with that.".

(** ** Where [create_branch] stops *)

Section Outcomes.
Context `{Codecs}.
Variable env : Env.

(** The call stops before a session is made: the name is a branch already,
    HEAD is on no commit of a branch, or git refuses to create the branch
    or to check it out, as it does while the index holds unmerged paths. *)
Definition stops_early (branch_name : string) (st : State) : Prop :=
  is_Some (heads (repo st) !! branch_name)
  \/ Git.head_commit (repo st) = None
  \/ create_head_fails env branch_name = true
  \/ checkout_fails env branch_name = true
  \/ merging (repo st) = true.


End Outcomes.

(** Unfolds the combinators of the monad in a goal about a run. *)
Ltac run_monad :=
  unfold logger_error, logger_warning, print in *;
  unfold try_except, try_except_only, bind, ret, raise, gets, modify in *.

(** * Facts about the string operations *)

Module PyStrFacts.
Import PyStr.

Lemma app_nil_r (s : string) : s +:+ "" = s.
Proof. induction s as [|c s IH]; cbn [append]; [reflexivity | now rewrite IH]. Qed.

Lemma app_assoc (a b c : string) : (a +:+ b) +:+ c = a +:+ (b +:+ c).
Proof. induction a as [|x a IH]; cbn [append]; [reflexivity | now rewrite IH]. Qed.

Lemma length_app (a b : string) :
  String.length (a +:+ b) = (String.length a + String.length b)%nat.
Proof. induction a as [|x a IH]; simpl; [reflexivity | now rewrite IH]. Qed.

Lemma len_app (a b : string) : len (a +:+ b) = len a + len b.
Proof. unfold len. rewrite length_app. lia. Qed.

Lemma len_nonneg (s : string) : 0 <= len s.
Proof. unfold len. lia. Qed.

Lemma len_cons (c : ascii) (s : string) : len (String c s) = 1 + len s.
Proof. unfold len. simpl. lia. Qed.

Lemma startswith_app (sub r : string) : startswith sub (sub +:+ r) = true.
Proof.
  induction sub as [|c sub IH]; simpl; [reflexivity|].
  now rewrite Ascii.eqb_refl.
Qed.

Lemma startswith_inv (sub s : string) :
  startswith sub s = true -> exists r, s = sub +:+ r.
Proof.
  revert s. induction sub as [|c sub IH]; intros s Hs.
  - now exists s.
  - destruct s as [|d s]; simpl in Hs; [discriminate|].
    apply andb_prop in Hs as [Hc Hs]. apply Ascii.eqb_eq in Hc as ->.
    destruct (IH _ Hs) as [r ->]. now exists r.
Qed.

Lemma contains_startswith (sub s : string) :
  startswith sub s = true -> contains sub s = true.
Proof. intros Hs. destruct s; simpl; now rewrite Hs. Qed.

Lemma contains_intro (sub l r : string) : contains sub (l +:+ sub +:+ r) = true.
Proof.
  induction l as [|c l IH]; simpl.
  - apply contains_startswith, startswith_app.
  - rewrite IH. apply orb_true_r.
Qed.

Lemma find_from_startswith (sub s : string) (i : Z) :
  startswith sub s = true -> find_from sub s i = i.
Proof. intros Hs. destruct s; simpl; now rewrite Hs. Qed.

Lemma contains_inv (sub s : string) :
  contains sub s = true -> exists l r, s = l +:+ sub +:+ r.
Proof.
  induction s as [|c s IH]; simpl; intros Hs.
  - rewrite orb_false_r in Hs. apply startswith_inv in Hs as [r ->]. now exists "", r.
  - apply orb_prop in Hs as [Hs|Hs].
    + apply startswith_inv in Hs as [r ->]. now exists "", r.
    + destruct (IH Hs) as (l & r & ->). now exists (String c l), r.
Qed.

Lemma no_char_app (c : ascii) (a b : string) :
  no_char c (a +:+ b) = no_char c a && no_char c b.
Proof.
  induction a as [|x a IH]; simpl; [reflexivity|].
  rewrite IH. now rewrite andb_assoc.
Qed.

Lemma no_start_char (c : ascii) (sub a t : string) :
  no_char c a = true -> no_start (String c sub) a t.
Proof.
  induction a as [|x a IH]; simpl; [trivial|]. intros Ha.
  apply andb_prop in Ha as [Hx Ha]. split; [|auto].
  apply negb_true_iff in Hx. now rewrite Hx.
Qed.

Lemma find_from_app (sub a r : string) (i : Z) :
  no_start sub a (sub +:+ r) ->
  find_from sub (a +:+ sub +:+ r) i = i + len a.
Proof.
  revert i. induction a as [|c a IH]; intros i Ha.
  - simpl. rewrite find_from_startswith by apply startswith_app.
    unfold len; simpl; lia.
  - destruct Ha as [Hc Ha]. simpl in *.
    rewrite Hc, IH by assumption. rewrite len_cons. lia.
Qed.

Lemma find_app (sub a r : string) :
  no_start sub a (sub +:+ r) -> find sub (a +:+ sub +:+ r) = len a.
Proof. intros Ha. unfold find. now rewrite find_from_app. Qed.

Lemma find_from_none (sub s : string) (i : Z) :
  contains sub s = false -> find_from sub s i = -1.
Proof.
  revert i. induction s as [|c s IH]; intros i; simpl.
  - rewrite orb_false_r. now intros ->.
  - intros Hs. apply orb_false_elim in Hs as [-> Hs]. now apply IH.
Qed.

Lemma rfind_from_none (sub s : string) (i : Z) :
  contains sub s = false -> rfind_from sub s i = -1.
Proof.
  revert i. induction s as [|c s IH]; intros i; simpl.
  - rewrite orb_false_r. now intros ->.
  - intros Hs. apply orb_false_elim in Hs as [-> Hs]. now rewrite IH.
Qed.

Lemma rfind_from_app (sub a t : string) (i v : Z) :
  0 <= v -> rfind_from sub t (i + len a) = v -> rfind_from sub (a +:+ t) i = v.
Proof.
  revert i. induction a as [|c a IH]; intros i Hv Ht.
  - simpl. unfold len in Ht. simpl in Ht. now rewrite Z.add_0_r in Ht.
  - simpl. rewrite (IH (i + 1)); [|assumption|].
    + destruct (0 <=? v) eqn:E; [reflexivity|lia].
    + rewrite <- Ht. f_equal. rewrite len_cons. lia.
Qed.

(** The last occurrence: [sub] at the end of [a], nothing after its start. *)
Lemma rfind_from_last (sub a t : string) (i : Z) :
  0 <= i -> sub <> "" ->
  (forall c t', sub +:+ t = String c t' -> contains sub t' = false) ->
  rfind_from sub (a +:+ sub +:+ t) i = i + len a.
Proof.
  intros Hi Hsub Ht. apply rfind_from_app; [pose proof (len_nonneg a); lia|].
  destruct (sub +:+ t) as [|c t'] eqn:E.
  - destruct sub; [congruence | discriminate].
  - cbn [rfind_from]. rewrite rfind_from_none by eauto.
    simpl (0 <=? -1). cbv iota. rewrite <- E, startswith_app. reflexivity.
Qed.

Lemma take_app (a b : string) : take (String.length a) (a +:+ b) = a.
Proof. induction a as [|c a IH]; simpl; [now destruct b | now rewrite IH]. Qed.

Lemma drop_app (a b : string) : drop (String.length a) (a +:+ b) = b.
Proof. induction a as [|c a IH]; simpl; [reflexivity | assumption]. Qed.

Lemma slice_middle (a b c : string) :
  slice (len a) (len a + len b) (a +:+ b +:+ c) = b.
Proof.
  unfold slice, clamp. rewrite !len_app.
  pose proof (len_nonneg a). pose proof (len_nonneg b). pose proof (len_nonneg c).
  destruct (len a <? 0) eqn:E1; [lia|].
  destruct (len a + len b <? 0) eqn:E2; [lia|].
  rewrite (Z.min_r _ (len a)), (Z.min_r _ (len a + len b)) by lia.
  rewrite !Z.max_r by lia.
  replace (len a + len b - len a) with (len b) by lia.
  unfold len. rewrite !Nat2Z.id.
  now rewrite drop_app, take_app.
Qed.

Lemma contains_no_char (c : ascii) (sub s : string) :
  no_char c s = true -> contains (String c sub) s = false.
Proof.
  induction s as [|x s IH]; simpl; [reflexivity|]. intros Hs.
  apply andb_prop in Hs as [Hx Hs]. apply negb_true_iff in Hx.
  now rewrite Hx, IH.
Qed.

Lemma split_go_skip (sep x r : string) :
  split_go sep (x +:+ r) (String.length x) = split_go sep r 0.
Proof. induction x as [|c x IH]; simpl; [reflexivity | assumption]. Qed.

Lemma split_go_app (sep a r : string) :
  sep <> "" -> no_start sep a (sep +:+ r) ->
  split_go sep (a +:+ sep +:+ r) 0
  = (a, fst (split_go sep r 0) :: snd (split_go sep r 0)).
Proof.
  intros Hsep. induction a as [|c a IH]; intros Ha.
  - destruct sep as [|c sep]; [congruence|]. simpl ("" +:+ _).
    pose proof (startswith_app (String c sep) r) as Hs.
    simpl (String c sep +:+ r) in *. cbn [split_go]. rewrite Hs.
    simpl (String.length _ - 1)%nat. rewrite Nat.sub_0_r, split_go_skip.
    now destruct (split_go (String c sep) r 0).
  - destruct Ha as [Hc Ha]. simpl in *. rewrite Hc, (IH Ha). reflexivity.
Qed.

Lemma split_app (sep a r : string) :
  sep <> "" -> no_start sep a (sep +:+ r) ->
  split sep (a +:+ sep +:+ r) = a :: split sep r.
Proof.
  intros Hsep Ha. unfold split. rewrite split_go_app by assumption.
  now destruct (split_go sep r 0).
Qed.

Lemma split_none (sep s : string) : contains sep s = false -> split sep s = [s].
Proof.
  unfold split. induction s as [|c s IH]; simpl; [reflexivity|]. intros Hs.
  apply orb_false_elim in Hs as [-> Hs]. specialize (IH Hs).
  destruct (split_go sep s 0) as [h t]. now inversion IH.
Qed.

(** Every piece after the first one starts right after a separator. *)
Lemma split_go_origin (sep s sec : string) (k : nat) :
  sep <> "" ->
  In sec (snd (split_go sep s k)) ->
  exists l r, s = l +:+ sep +:+ r /\ sec = fst (split_go sep r 0).
Proof.
  intros Hsep. revert k. induction s as [|c s IH]; intros k Hin; [destruct Hin|].
  destruct k as [|k].
  - cbn [split_go] in Hin. destruct (startswith sep (String c s)) eqn:Hs.
    + destruct (split_go sep s (String.length sep - 1)) as [h t] eqn:E.
      apply startswith_inv in Hs as [r Hr].
      destruct sep as [|c' sep]; [congruence|].
      * simpl in Hr. injection Hr as -> ->.
        simpl (String.length _ - 1)%nat in E. rewrite Nat.sub_0_r, split_go_skip in E.
        destruct Hin as [<-|Hin].
        -- exists "", r. now rewrite E.
        -- change t with (snd (h, t)) in Hin.
           rewrite <- E, <- (split_go_skip (String c' sep) sep r) in Hin.
           destruct (IH _ Hin) as (l & r' & Hr' & ->).
           exists (String c' l), r'. split; [|reflexivity].
           simpl. now rewrite Hr'.
    + destruct (split_go sep s 0) as [h t] eqn:E. simpl in Hin.
      change t with (snd (h, t)) in Hin. rewrite <- E in Hin.
      destruct (IH _ Hin) as (l & r & -> & ->). now exists (String c l), r.
  - cbn [split_go] in Hin.
    destruct (IH _ Hin) as (l & r & -> & ->). now exists (String c l), r.
Qed.

Lemma split_origin (sep s sec : string) :
  sep <> "" ->
  In sec (tl (split sep s)) ->
  exists l r, s = l +:+ sep +:+ r /\ sec = hd "" (split sep r).
Proof.
  unfold split. intros Hsep Hin.
  destruct (split_go_origin sep s sec 0 Hsep) as (l & r & -> & ->).
  - now destruct (split_go sep s 0).
  - exists l, r. split; [reflexivity|]. now destruct (split_go sep r 0).
Qed.

End PyStrFacts.

(** * Facts about the response parser *)

Module ParserFacts.
Import PyStr PyStrFacts.

Lemma FILE_MARK_nonempty : FILE_MARK <> "".
Proof. discriminate. Qed.

(** The marker has no border: an occurrence that starts inside a text
    followed by the marker lies inside that text. *)
Lemma mark_border (x r : string) :
  x <> "" -> startswith FILE_MARK (x +:+ FILE_MARK +:+ r) = true ->
  startswith FILE_MARK x = true.
Proof.
  unfold FILE_MARK. intros Hx Hs.
  destruct x as [|c1 [|c2 [|c3 [|c4 [|c5 [|c6 x]]]]]]; simpl in *;
    try congruence; try assumption;
    repeat match goal with
           | H : _ && _ = true |- _ => apply andb_prop in H as [? H]
           end; discriminate.
Qed.

Lemma mark_no_start (a r : string) :
  contains FILE_MARK a = false -> no_start FILE_MARK a (FILE_MARK +:+ r).
Proof.
  induction a as [|c a IH]; [simpl; trivial|]. intros Ha.
  cbn [contains] in Ha. apply orb_false_elim in Ha as [Hc Ha].
  split; [|auto].
  destruct (startswith FILE_MARK (String c a +:+ FILE_MARK +:+ r)) eqn:E; [|reflexivity].
  apply mark_border in E; [congruence | discriminate].
Qed.

Lemma split_mark (a r : string) :
  contains FILE_MARK a = false ->
  split FILE_MARK (a +:+ FILE_MARK +:+ r) = a :: split FILE_MARK r.
Proof.
  intros Ha. apply split_app; [apply FILE_MARK_nonempty | now apply mark_no_start].
Qed.

Lemma parse_section_skip (changes : PyDict.t string) (section : string) :
  fences_located section = false -> parse_section changes section = changes.
Proof. unfold fences_located, parse_section. now intros ->. Qed.

Lemma parse_section_located (changes : PyDict.t string) (section : string) :
  fences_located section = true ->
  parse_section changes section
  = PyDict.set (section_filename section) (section_content section) changes.
Proof. unfold fences_located, parse_section. now intros ->. Qed.

Lemma fold_parse_filter (sections : list string) (changes : PyDict.t string) :
  fold_left parse_section sections changes
  = fold_left parse_section (List.filter fences_located sections) changes.
Proof.
  revert changes. induction sections as [|sec secs IH]; intros changes; [reflexivity|].
  simpl. destruct (fences_located sec) eqn:E; simpl.
  - apply IH.
  - rewrite parse_section_skip by assumption. apply IH.
Qed.

Lemma set_not_empty {V} (k : string) (v : V) (d : PyDict.t V) :
  PyDict.is_empty (PyDict.set k v d) = false.
Proof. destruct d as [|[k' v'] d]; simpl; [reflexivity|]. now destruct (String.eqb k k'). Qed.

Lemma in_set {V} (k k' : string) (v v' : V) (d : PyDict.t V) :
  In (k, v) (PyDict.set k' v' d) -> k = k' \/ In (k, v) d.
Proof.
  induction d as [|[k0 v0] d IH]; simpl.
  - intros [E|[]]. left. congruence.
  - destruct (String.eqb_spec k' k0) as [->|Hne]; simpl.
    + intros [E|Hin]; [left; congruence | right; now right].
    + intros [E|Hin]; [right; now left|]. destruct (IH Hin); [now left | right; now right].
Qed.

Lemma fold_parse_not_empty (sections : list string) (changes : PyDict.t string) :
  PyDict.is_empty changes = false ->
  PyDict.is_empty (fold_left parse_section sections changes) = false.
Proof.
  revert changes. induction sections as [|sec secs IH]; intros changes Hc; [assumption|].
  simpl. apply IH. destruct (fences_located sec) eqn:E.
  - rewrite parse_section_located by assumption. apply set_not_empty.
  - now rewrite parse_section_skip.
Qed.

Lemma fold_parse_keys (sections : list string) (changes : PyDict.t string)
    (k v : string) :
  In (k, v) (fold_left parse_section sections changes) ->
  In k (PyDict.keys changes)
  \/ exists sec, In sec sections /\ fences_located sec = true
                 /\ k = section_filename sec.
Proof.
  revert changes. induction sections as [|sec secs IH]; intros changes Hin.
  - left. unfold PyDict.keys. now apply (in_map fst) in Hin.
  - simpl in Hin. destruct (IH _ Hin) as [Hk|(sec' & Hs & Hl & ->)].
    + destruct (fences_located sec) eqn:E.
      * rewrite parse_section_located in Hk by assumption.
        unfold PyDict.keys in Hk. apply in_map_iff in Hk as ([k' v'] & <- & Hk).
        apply in_set in Hk as [->|Hk].
        -- right. exists sec. simpl. auto.
        -- left. unfold PyDict.keys. now apply (in_map fst) in Hk.
      * rewrite parse_section_skip in Hk by assumption. now left.
    + right. exists sec'. simpl. auto.
Qed.

Lemma parse_response_content (content : string) :
  _parse_ollama_response [("response", content)] = parse_content content.
Proof. reflexivity. Qed.

Lemma startswith_cons (a b : ascii) (sub s : string) :
  startswith (String a sub) (String b s) = Ascii.eqb a b && startswith sub s.
Proof. reflexivity. Qed.

Lemma contains_cons (sub s : string) (c : ascii) :
  contains sub (String c s) = startswith sub (String c s) || contains sub s.
Proof. reflexivity. Qed.

Lemma startswith_no_char (c : ascii) (sub s : string) :
  no_char c s = true -> startswith (String c sub) s = false.
Proof.
  destruct s as [|x s]; [reflexivity|]. cbn [no_char]. intros Hs.
  apply andb_prop in Hs as [Hx _]. apply negb_true_iff in Hx.
  now rewrite startswith_cons, Hx.
Qed.

(** No fence starts after the start of a fence that is followed by text
    without a backtick. *)
Lemma no_fence_after (b : string) (c : ascii) (t : string) :
  no_char backtick b = true -> FENCE +:+ b = String c t ->
  contains FENCE t = false.
Proof.
  intros Hb E. injection E as _ <-.
  change ("``" +:+ b) with (String backtick (String backtick b)).
  change FENCE with (String backtick (String backtick (String backtick ""))).
  rewrite !contains_cons, !startswith_cons.
  rewrite (startswith_no_char backtick "" b Hb).
  rewrite (startswith_no_char backtick (String backtick "") b Hb).
  rewrite (contains_no_char backtick _ b Hb).
  now rewrite !andb_false_r.
Qed.

(** A section written as the prompt asks is parsed to its path and body. *)
Lemma fenced_section_parts (path a body b : string) :
  no_char newline path = true ->
  no_char backtick (path +:+ a +:+ b) = true ->
  body <> "" ->
  fences_located (fenced_section path a body b) = true
  /\ section_filename (fenced_section path a body b) = strip path
  /\ section_content (fenced_section path a body b) = strip body.
Proof.
  intros Hnl Hbt Hbody. rewrite !no_char_app in Hbt.
  apply andb_prop in Hbt as [Hp Hab]. apply andb_prop in Hab as [Ha Hb].
  set (pre := path +:+ nl +:+ a).
  assert (Hpre : no_char backtick pre = true).
  { unfold pre. rewrite !no_char_app, Hp, Ha. reflexivity. }
  assert (Hfind : find FENCE (fenced_section path a body b) = len pre).
  { unfold fenced_section. rewrite <- !(app_assoc path), <- (app_assoc (path +:+ nl)).
    rewrite (app_assoc path). fold pre.
    apply find_app. now apply (no_start_char backtick). }
  assert (Hrfind : rfind FENCE (fenced_section path a body b) = len pre + 3 + len body).
  { unfold fenced_section, rfind.
    replace (path +:+ nl +:+ a +:+ FENCE +:+ body +:+ FENCE +:+ b)
      with ((pre +:+ FENCE +:+ body) +:+ FENCE +:+ b)
      by (unfold pre; now rewrite !app_assoc).
    rewrite rfind_from_last; [|lia|discriminate|].
    - rewrite !len_app. unfold FENCE, len at 2. simpl. lia.
    - intros c t' E. now apply (no_fence_after b c). }
  assert (Hlen : 0 < len body).
  { destruct body; [congruence|]. rewrite len_cons. pose proof (len_nonneg body). lia. }
  pose proof (len_nonneg pre) as Hpre0.
  split; [|split].
  - unfold fences_located. rewrite Hfind, Hrfind.
    apply andb_true_intro. split; apply Z.ltb_lt; lia.
  - unfold section_filename, split1.
    assert (Hf : find nl (fenced_section path a body b) = len path).
    { unfold fenced_section. apply find_app. now apply (no_start_char newline). }
    rewrite Hf. pose proof (len_nonneg path).
    destruct (len path <? 0) eqn:E; [lia|]. simpl hd.
    unfold fenced_section. f_equal.
    exact (slice_middle "" path _).
  - unfold section_content. rewrite Hfind, Hrfind.
    unfold fenced_section.
    replace (path +:+ nl +:+ a +:+ FENCE +:+ body +:+ FENCE +:+ b)
      with ((pre +:+ FENCE) +:+ body +:+ FENCE +:+ b)
      by (unfold pre; now rewrite !app_assoc).
    replace (len pre + 3) with (len (pre +:+ FENCE))
      by (rewrite len_app; reflexivity).
    now rewrite slice_middle.
Qed.

(** A fence that is opened and not closed is not located. *)
Lemma unterminated_not_located (path a body : string) :
  no_char backtick (path +:+ a +:+ body) = true ->
  fences_located (unterminated_section path a body) = false.
Proof.
  intros Hbt. rewrite !no_char_app in Hbt.
  apply andb_prop in Hbt as [Hp Hab]. apply andb_prop in Hab as [Ha Hb].
  set (pre := path +:+ nl +:+ a).
  assert (Hpre : no_char backtick pre = true).
  { unfold pre. rewrite !no_char_app, Hp, Ha. reflexivity. }
  assert (E : unterminated_section path a body = pre +:+ FENCE +:+ body).
  { unfold unterminated_section, pre. now rewrite !app_assoc. }
  unfold fences_located. rewrite E.
  rewrite find_app by now apply (no_start_char backtick).
  unfold rfind. rewrite rfind_from_last; [|lia|discriminate|].
  - apply andb_false_intro2. apply Z.ltb_ge. lia.
  - intros c t' Ect. now apply (no_fence_after body c).
Qed.

End ParserFacts.

(** * The response parser: claims C2, C3 and C10 *)

Section ParserClaims.
Import PyStr PyStrFacts ParserFacts.

Lemma parse_content_raises_iff (content : string) :
  parse_content content = Raise no_changes
  <-> (forall sec, In sec (tl (split FILE_MARK content)) -> fences_located sec = false).
Proof.
  unfold parse_content, parse_sections.
  generalize (tl (split FILE_MARK content)) as sections. intros sections.
  assert (Hgen : forall (secs : list string) (d : PyDict.t string),
             PyDict.is_empty (fold_left parse_section secs d) = true
             <-> PyDict.is_empty d = true
                 /\ (forall sec, In sec secs -> fences_located sec = false)).
  { induction secs as [|sec secs IH]; intros d; simpl.
    - split; [intros Hd; split; [assumption | intros ? []] | now intros [Hd _]].
    - rewrite IH. destruct (fences_located sec) eqn:E.
      + rewrite parse_section_located, set_not_empty by assumption.
        split; [intros [Hd _]; discriminate|].
        intros [_ Hall]. specialize (Hall sec (or_introl eq_refl)). congruence.
      + rewrite parse_section_skip by assumption.
        split; intros [Hd Hall]; (split; [assumption|]).
        * intros s [<-|Hs]; auto.
        * intros s Hs. apply Hall. now right. }
  specialize (Hgen sections []).
  destruct (PyDict.is_empty (fold_left parse_section sections [])) eqn:E.
  - split; [intros _; now apply Hgen | reflexivity].
  - split; [discriminate|]. intros Hall.
    assert (false = true) by (apply Hgen; auto). discriminate.
Qed.

(** C2. A response made of an explanation prefix and exactly one
    well-formed [FILE: ] section parses to a mapping with exactly one entry,
    whatever the prefix says: the key is the first line of the section,
    trimmed, and the value is the text strictly between its first and last
    fence, trimmed.  For a section written as path, newline, text, fence,
    body, fence, text these are the path and the body.  In particular the
    response of the spec's scenario parses to [{"a.py": "print(1)"}]. *)
Theorem parse_single_section :
  (forall prefix section : string,
      contains FILE_MARK prefix = false ->
      contains FILE_MARK section = false ->
      fences_located section = true ->
      _parse_ollama_response [("response", prefix +:+ FILE_MARK +:+ section)]
      = Ok [(section_filename section, section_content section)])
  /\ (forall path a body b : string,
        no_char newline path = true ->
        no_char backtick (path +:+ a +:+ b) = true ->
        body <> "" ->
        fences_located (fenced_section path a body b) = true
        /\ section_filename (fenced_section path a body b) = strip path
        /\ section_content (fenced_section path a body b) = strip body)
  /\ _parse_ollama_response [("response", scenario_response)]
     = Ok [("a.py", "print(1)")].
Proof.
  split; [|split].
  - intros prefix section Hp Hs Hl. rewrite parse_response_content.
    unfold parse_content. rewrite split_mark, split_none by assumption.
    cbn [tl parse_sections fold_left].
    rewrite parse_section_located by assumption. reflexivity.
  - apply fenced_section_parts.
  - vm_compute. reflexivity.
Qed.

(** C3. A section whose fences are not located is skipped: it changes
    neither the edits collected so far nor the outcome of the parse, which
    is that of the located sections alone.  A section whose fence is opened
    and never closed is such a section, so a response with one well-formed
    and one malformed section, in either order, yields exactly the edit of
    the well-formed one.  The parse raises "No valid changes found" exactly
    when no section has located fences. *)
Theorem malformed_sections_skipped :
  (forall (changes : PyDict.t string) (section : string),
      fences_located section = false -> parse_section changes section = changes)
  /\ (forall sections : list string,
        parse_sections sections = parse_sections (List.filter fences_located sections))
  /\ (forall path a body : string,
        no_char backtick (path +:+ a +:+ body) = true ->
        fences_located (unterminated_section path a body) = false)
  /\ (forall prefix good bad : string,
        contains FILE_MARK prefix = false ->
        contains FILE_MARK good = false ->
        contains FILE_MARK bad = false ->
        fences_located good = true ->
        fences_located bad = false ->
        _parse_ollama_response
          [("response", prefix +:+ FILE_MARK +:+ good +:+ FILE_MARK +:+ bad)]
        = Ok [(section_filename good, section_content good)]
        /\ _parse_ollama_response
             [("response", prefix +:+ FILE_MARK +:+ bad +:+ FILE_MARK +:+ good)]
           = Ok [(section_filename good, section_content good)])
  /\ (forall content : string,
        _parse_ollama_response [("response", content)] = Raise no_changes
        <-> (forall sec, In sec (tl (split FILE_MARK content)) ->
                         fences_located sec = false))
  /\ _parse_ollama_response [("response", unterminated_response)]
     = Ok [("a.py", "print(1)")].
Proof.
  split; [|split; [|split; [|split; [|split]]]].
  - apply parse_section_skip.
  - intros sections. unfold parse_sections. apply fold_parse_filter.
  - apply unterminated_not_located.
  - intros prefix good bad Hp Hg Hb Hlg Hlb.
    rewrite !parse_response_content. unfold parse_content.
    rewrite !split_mark, !split_none by assumption.
    cbn [tl parse_sections fold_left].
    rewrite !(parse_section_skip _ bad), !(parse_section_located _ good) by assumption.
    split; reflexivity.
  - intros content. rewrite parse_response_content. apply parse_content_raises_iff.
  - vm_compute. reflexivity.
Qed.

(** C10. A section starts only at the exact string [FILE: ], with the
    space.  A response in which that string does not occur yields no edit
    (the parse raises "No valid changes found"), also when [FILE:] is
    followed at once by a path and a well-formed fenced block; and the key
    of every edit of every response is the trimmed first line of a piece of
    text that comes right after an occurrence of [FILE: ]. *)
Theorem marker_needs_space :
  (forall content : string,
      contains FILE_MARK content = false ->
      _parse_ollama_response [("response", content)] = Raise no_changes)
  /\ (forall prefix section : string,
        contains FILE_MARK (prefix +:+ "FILE:" +:+ section) = false ->
        fences_located section = true ->
        _parse_ollama_response [("response", prefix +:+ "FILE:" +:+ section)]
        = Raise no_changes)
  /\ (forall (content : string) (changes : PyDict.t string) (k v : string),
        _parse_ollama_response [("response", content)] = Ok changes ->
        In (k, v) changes ->
        exists l r, content = l +:+ FILE_MARK +:+ r
                    /\ k = section_filename (hd "" (split FILE_MARK r)))
  /\ _parse_ollama_response [("response", nospace_response)] = Raise no_changes
  /\ _parse_ollama_response [("response", mixed_response)]
     = Ok [("a.py", join nl ["A"; "```"; "FILE:b.py"; "```"; "B"])].
Proof.
  assert (Hnone : forall content : string,
             contains FILE_MARK content = false ->
             _parse_ollama_response [("response", content)] = Raise no_changes).
  { intros content Hc. rewrite parse_response_content.
    unfold parse_content. now rewrite split_none. }
  split; [exact Hnone|]. split; [intros prefix section Hc _; now apply Hnone|].
  split; [|split; vm_compute; reflexivity].
  intros content changes k v Hparse Hin.
  rewrite parse_response_content in Hparse. unfold parse_content in Hparse.
  destruct (PyDict.is_empty _); [discriminate|]. injection Hparse as <-.
  apply fold_parse_keys in Hin as [[]|(sec & Hsec & _ & ->)].
  apply split_origin in Hsec as (l & r & -> & ->); [|apply FILE_MARK_nonempty].
  now exists l, r.
Qed.

End ParserClaims.


(** * Files and their names *)

Section FileFacts.
Context `{Codecs}.
Variable env : Env.

Lemma inside_git_doc_path (branch_name : string) :
  inside_git (doc_path branch_name) = false.
Proof. reflexivity. Qed.

Lemma store_doc (branch_name content : string) (st : State) :
  store env (doc_path branch_name) content st
  = set_files (<[doc_path branch_name := content]> (files st)) st.
Proof. unfold store. now rewrite inside_git_doc_path. Qed.

Lemma file_named_doc (branch_name : string) (st : State) :
  file_named env st (doc_path branch_name) = files st !! doc_path branch_name.
Proof. unfold file_named. now rewrite inside_git_doc_path. Qed.

(** Checking out a branch just made at the commit of HEAD leaves the files
    alone. *)
Lemma checkout_files_new (name cur tip : string) (st : State) :
  HEAD (repo st) = Some cur ->
  heads (repo st) !! cur = Some tip ->
  heads (repo st) !! name = None ->
  Git.checkout_files env name
    (set_repo (Git.with_heads (<[name := tip]> (heads (repo st))) (repo st)) st)
  = files st.
Proof.
  intros Hhead Htip Hnone. unfold Git.checkout_files, Git.head_commit.
  cbn [repo set_repo HEAD heads Git.with_heads files]. rewrite Hhead.
  cbn [mbind option_bind].
  rewrite lookup_insert_ne by congruence. rewrite Htip, lookup_insert_eq.
  now rewrite bool_decide_eq_true_2.
Qed.

End FileFacts.

(** * The lifecycle controller: claims C1, C4, C5 and C6 *)

Section Lifecycle.
Context `{Codecs}.
Variable env : Env.

(** C1.  [create_branch] never raises: it returns a boolean.  When it stops
    before a session is made (the name is a branch already, HEAD is on no
    commit of a branch, git refuses to create or to check out the branch),
    it returns [False] and the session in memory and the persisted session
    are as before the call, so a state without a session and with nothing
    persisted stays so.  Otherwise the new session is in memory when the
    call ends, whatever it returns: when persisting it fails the call
    returns [False] and the session file holds what the failed write left;
    when persisting succeeds the session is persisted in full, and the call
    returns [False] when the documentation cannot be initialised and [True]
    when it can. *)
Theorem create_branch_failure (branch_name : string) (st : State) :
  let fresh := new_session env branch_name in
  let r := create_branch env branch_name st in
  (exists created, fst r = Ok created)
  /\ (stops_early env branch_name st ->
      fst r = Ok false
      /\ session (snd r) = session st /\ session_file (snd r) = session_file st)
  /\ (~ stops_early env branch_name st ->
      session (snd r) = Some fresh
      /\ (session_write_outcome env <> WrOk ->
          fst r = Ok false
          /\ session_file (snd r)
             = match session_write_outcome env with
               | WrTorn residue => Some residue
               | _ => session_file st
               end)
      /\ (session_write_outcome env = WrOk ->
          session_file (snd r) = Some (pickle_dump fresh)
          /\ (write_outcome env (doc_path branch_name) <> WrOk -> fst r = Ok false)
          /\ (write_outcome env (doc_path branch_name) = WrOk -> fst r = Ok true))).
Proof.
  unfold stops_early, Git.head_commit.
  unfold create_branch, Git.has_head, Git.active_branch, Git.create_head,
    Git.checkout, _save_session, _init_documentation, write_file.
  run_monad. cbn beta zeta.
  destruct (bool_decide (is_Some (heads (repo st) !! branch_name))) eqn:Hex.
  { apply bool_decide_eq_true in Hex. cbn [fst snd session session_file add_log].
    split; [eauto|]. split; [auto|]. intros Hn. exfalso. apply Hn. auto. }
  apply bool_decide_eq_false in Hex.
  destruct (HEAD (repo st)) as [cur|] eqn:Hhead.
  2:{ cbn [fst snd session session_file add_log].
      split; [eauto|]. split; [auto|]. intros Hn. exfalso. apply Hn. auto. }
  cbn [mbind option_bind]. rewrite Hhead. cbn [mbind option_bind].
  destruct (heads (repo st) !! cur) as [tip|] eqn:Htip.
  2:{ cbn [fst snd session session_file add_log].
      split; [eauto|]. split; [auto|]. intros Hn. exfalso. apply Hn. auto. }
  destruct (create_head_fails env branch_name) eqn:Hcreate.
  { cbn [orb fst snd session session_file add_log].
    split; [eauto|]. split; [auto|]. intros Hn. exfalso. apply Hn. auto. }
  rewrite bool_decide_eq_false_2 by assumption.
  cbn [orb set_repo repo Git.with_heads heads merging].
  destruct (checkout_fails env branch_name) eqn:Hcheckout.
  { cbn [orb fst snd session session_file add_log set_repo].
    split; [eauto|]. split; [auto|]. intros Hn. exfalso. apply Hn. auto 6. }
  destruct (merging (repo st)) eqn:Hmerging.
  { cbn [orb fst snd session session_file add_log set_repo].
    split; [eauto|]. split; [auto|]. intros Hn. exfalso. apply Hn. auto 6. }
  rewrite bool_decide_eq_true_2 by (rewrite lookup_insert_eq; eauto).
  cbn [orb negb set_session set_files session].
  destruct (session_write_outcome env) as [| |residue] eqn:Hsave.
  - cbn [set_session_file]. rewrite store_doc.
    destruct (write_outcome env (doc_path branch_name)) eqn:Hdoc;
      cbn [fst snd session session_file add_log set_files set_session_file set_session];
      (split; [eauto|]); (split; [intros [?|[?|[?|[?|?]]]]; [contradiction|discriminate..]|]); intros _;
      (split; [reflexivity|]); (split; [intros Hc; now elim Hc|]); intros _;
      (split; [reflexivity|]); split; congruence.
  - cbn [fst snd session session_file add_log set_files set_session_file set_session].
    split; [eauto|]. split; [intros [?|[?|[?|[?|?]]]]; [contradiction|discriminate..]|]. intros _.
    split; [reflexivity|]. split; [auto|discriminate].
  - cbn [fst snd session session_file add_log set_files set_session_file set_session].
    split; [eauto|]. split; [intros [?|[?|[?|[?|?]]]]; [contradiction|discriminate..]|]. intros _.
    split; [reflexivity|]. split; [auto|discriminate].
Qed.

(** The entry that [update_documentation] appends to the history. *)
Lemma update_documentation_never_raises (prompt : string)
    (changes : PyDict.t string) (commit_hash : string) (st : State) :
  fst (update_documentation env prompt changes commit_hash st) = Ok tt.
Proof.
  unfold update_documentation, append_file, _save_session. run_monad. cbn beta.
  destruct (session st) as [s|] eqn:Hs; [|reflexivity].
  rewrite ?store_doc.
  destruct (write_outcome env (doc_path (branch s))); try reflexivity.
  cbn [set_files session set_session]. rewrite Hs. cbn [fmap option_map].
  destruct (session_write_outcome env); reflexivity.
Qed.

(** C5.  [update_documentation] never raises.  When the write to the
    documentation log fails, the failure is logged and the call returns, but
    the change record is not appended: the session in memory, its history
    and the persisted session are as before the call.  The record is
    appended to the history when the write to the log succeeded. *)
Theorem documentation_failure_drops_record (prompt : string)
    (changes : PyDict.t string) (commit_hash : string) (st : State) (s : Session) :
  session st = Some s ->
  let record :=
    {| cr_timestamp := now_stamp env; cr_prompt := prompt;
       cr_changes := map (fun file_path => file_path +:+ " (modified)")
                         (PyDict.keys changes);
       cr_commit := commit_hash |} in
  let r := update_documentation env prompt changes commit_hash st in
  fst r = Ok tt
  /\ (write_outcome env (doc_path (branch s)) <> WrOk ->
      session (snd r) = Some s
      /\ session_file (snd r) = session_file st
      /\ repo (snd r) = repo st
      /\ exists msg,
          log (snd r)
          = (log st ++ ["ERROR - Failed to update documentation: " +:+ msg])%list)
  /\ (write_outcome env (doc_path (branch s)) = WrOk ->
      session (snd r) = Some (append_history record s)).
Proof.
  intros Hs record r. split; [apply update_documentation_never_raises|].
  subst r record.
  unfold update_documentation, append_file, _save_session. run_monad. cbn beta.
  rewrite Hs. rewrite ?store_doc.
  destruct (write_outcome env (doc_path (branch s))) as [| |residue] eqn:Hw.
  - split; [congruence|]. intros _.
    cbn [set_files session set_session]. rewrite Hs. cbn [fmap option_map].
    destruct (session_write_outcome env); reflexivity.
  - split; [|discriminate]. intros _. simpl. eauto 6.
  - split; [|discriminate]. intros _. simpl. eauto 6.
Qed.

(** C6.  What [_save_session] persists, [_load_session] reads back.  When
    the session file can be written, saving a session leaves its pickle in
    the session file.  Loading in any state that holds this file, whatever
    session it has in memory, returns what [pickle] decodes from it, and
    no session when the file is absent: so when [pickle] decodes what it
    encoded, which is the contract of the library, loading after saving
    returns a session equal to the saved one in its four fields. *)
Theorem save_load_roundtrip (s : Session) (st st2 : State) :
  session_write_outcome env = WrOk ->
  session_read_fails env = false ->
  session st = Some s ->
  session_file st2 = session_file (snd (_save_session env st)) ->
  fst (_save_session env st) = Ok tt
  /\ session_file (snd (_save_session env st)) = Some (pickle_dump s)
  /\ (forall loaded,
        fst (_load_session env st2) = Ok (Some loaded)
        <-> pickle_load (pickle_dump s) = Ok loaded)
  /\ (pickle_load (pickle_dump s) = Ok s ->
      exists loaded,
        fst (_load_session env st2) = Ok (Some loaded)
        /\ branch loaded = branch s
        /\ context_files loaded = context_files s
        /\ changes_history loaded = changes_history s
        /\ created_at loaded = created_at s)
  /\ (forall st0, session_file st0 = None -> fst (_load_session env st0) = Ok None).
Proof.
  intros Hw Hr Hs. unfold _save_session, _load_session.
  rewrite Hs, Hw. cbn [fst snd session_file set_session_file]. intros ->.
  rewrite Hr. split; [reflexivity|]. split; [reflexivity|]. split; [|split].
  - intros loaded. destruct (pickle_load (pickle_dump s)) as [x|e]; cbn [fst];
      split; congruence.
  - intros ->. exists s. auto.
  - intros st0 ->. reflexivity.
Qed.

Lemma print_all_run (lines : list string) (st : State) :
  exists st', print_all lines st = (Ok tt, st')
              /\ repo st' = repo st /\ session st' = session st
              /\ files st' = files st /\ session_file st' = session_file st.
Proof.
  revert st. induction lines as [|l ls IH]; intros st.
  - exists st. auto.
  - cbn [print_all]. unfold bind, print, modify.
    destruct (IH (add_stdout l st)) as (st' & -> & Hr & Hs & Hf & Hsf).
    exists st'. auto.
Qed.

(** On a conflict the merge is aborted and the tool returns to the branch it
    came from: the repository and the session are as before. *)
Lemma merge_conflict_recovers (st : State) (s : Session) (cur msg : string) :
  session st = Some s ->
  is_Some (heads (repo st) !! "main") ->
  is_Some (heads (repo st) !! cur) ->
  HEAD (repo st) = Some cur ->
  dirty (repo st) = false ->
  merging (repo st) = false ->
  merge_head (repo st) = false ->
  checkout_fails env "main" = false ->
  checkout_fails env cur = false ->
  merge_outcome env (branch s) = MergeFailed msg true ->
  exists st',
    merge_to_main env st = (Ok false, st')
    /\ repo st' = repo st /\ session st' = session st.
Proof.
  intros Hs Hmain Hcur Hhead Hdirty Hmerging Hmh Hcm Hcc Hmerge.
  unfold merge_to_main, Git.has_head, Git.active_branch, Git.is_dirty,
    Git.checkout, Git.merge, session_branch.
  run_monad. cbn beta zeta.
  rewrite (bool_decide_eq_true_2 _ Hmain). cbn [negb].
  rewrite Hhead, Hdirty, Hcm, Hmerging, (bool_decide_eq_true_2 _ Hmain).
  cbn [orb negb set_repo set_files session repo]. rewrite Hs, Hmerge.
  cbn [is_GitCommandError exn_str Git.with_HEAD Git.with_merge heads merging repo
       set_repo set_files HEAD].
  assert (Hback : forall st0 : State,
             repo st0 = Git.with_merge true true (Git.with_HEAD (Some "main") (repo st)) ->
             session st0 = Some s ->
             exists st',
               (let (r, st1) := Git.merge_abort env st0 in
                match r with
                | Ok _ =>
                    let (r0, st2) := Git.checkout env cur st1 in
                    match r0 with
                    | Ok _ => (Ok false, st2)
                    | Raise e => (Raise e, st2)
                    end
                | Raise e => (Raise e, st1)
                end) = (Ok false, st')
               /\ repo st' = repo st /\ session st' = session st).
  { intros st0 Hr0 Hs0. unfold Git.merge_abort, Git.checkout.
    rewrite Hr0.
    cbn [merging merge_head Git.with_merge set_repo set_files repo heads Git.with_HEAD].
    rewrite Hcc, (bool_decide_eq_true_2 _ Hcur). cbn [orb negb].
    eexists. split; [reflexivity|]. cbn [repo session files set_repo set_files].
    split; [|congruence].
    unfold Git.with_HEAD, Git.with_merge. cbn [heads HEAD dirty merging merge_head].
    destruct (repo st); simpl in *; congruence. }
  destruct (PyStr.contains "CONFLICT" msg).
  - match goal with
    | |- context [print_all ?ls ?x] =>
        destruct (print_all_run ls x) as (st1 & -> & Hr1 & Hs1 & _)
    end.
    cbn [repo session files add_log set_repo set_files] in Hr1, Hs1.
    destruct (Hback st1) as (st' & Hrun & Hres); [congruence..|].
    unfold Git.checkout in Hrun. rewrite Hrun.
    exists st'. split; [reflexivity|]. destruct Hres. split; congruence.
  - match goal with
    | |- context [Git.merge_abort env ?x] =>
        destruct (Hback x) as (st' & Hrun & Hres);
        [cbn [repo session files add_log set_repo set_files]; congruence..|]
    end.
    unfold Git.checkout in Hrun. rewrite Hrun.
    exists st'. split; [reflexivity|]. destruct Hres. split; congruence.
Qed.

(** When git refuses the merge and none is in progress, [merge --abort]
    raises in the handler; the second [merge --abort] raises out of the method, and the
    repository is left on [main]. *)
Lemma merge_refused_strands (st : State) (s : Session) (cur msg : string) :
  session st = Some s ->
  is_Some (heads (repo st) !! "main") ->
  HEAD (repo st) = Some cur ->
  dirty (repo st) = false ->
  merging (repo st) = false ->
  merge_head (repo st) = false ->
  checkout_fails env "main" = false ->
  merge_outcome env (branch s) = MergeFailed msg false ->
  exists st' m,
    merge_to_main env st = (Raise (GitCommandError m), st')
    /\ HEAD (repo st') = Some "main".
Proof.
  intros Hs Hmain Hhead Hdirty Hmerging Hmh Hcm Hmerge.
  unfold merge_to_main, Git.has_head, Git.active_branch, Git.is_dirty,
    Git.checkout, Git.merge, Git.merge_abort, session_branch.
  run_monad. cbn beta zeta.
  rewrite (bool_decide_eq_true_2 _ Hmain). cbn [negb].
  rewrite Hhead, Hdirty, Hcm, Hmerging, (bool_decide_eq_true_2 _ Hmain).
  cbn [orb negb set_repo set_files session repo]. rewrite Hs, Hmerge.
  cbn [is_GitCommandError exn_str].
  destruct (PyStr.contains "CONFLICT" msg).
  - match goal with
    | |- context [print_all ?ls ?x] =>
        destruct (print_all_run ls x) as (st1 & -> & Hr1 & _)
    end.
    rewrite Hr1. cbn [repo add_log set_repo set_files Git.with_HEAD merging merge_head]. rewrite ?Hmerging, ?Hmh.
    cbn [repo add_log set_repo set_files Git.with_HEAD merging merge_head]. rewrite Hr1.
    cbn [repo add_log set_repo set_files Git.with_HEAD merging merge_head]. rewrite ?Hmerging, ?Hmh.
    eexists _, _. split; [reflexivity|]. cbn [repo add_log]. rewrite Hr1. reflexivity.
  - cbn [repo add_log set_repo set_files Git.with_HEAD merging merge_head]. rewrite ?Hmerging, ?Hmh.
    cbn [repo add_log set_repo set_files Git.with_HEAD merging merge_head]. rewrite ?Hmerging, ?Hmh.
    eexists _, _. split; reflexivity.
Qed.

End Lifecycle.

(** * Configuration, context files and the change applier: claims C7, C8, C9 *)

Section FilesAndConfig.
Context `{Codecs}.
Variable env : Env.

(** C7.  Loading the configuration returns the default patterns when the
    configuration file is absent, and the stored patterns (the defaults when
    the key is missing) when the file is read and decoded to an object.
    When reading or decoding the file fails, the error is not caught: it is
    raised to the caller and there is no fall back to the defaults. *)
Theorem load_config_cases (st : State) :
  (config_file st = None ->
   GitToolConfig_init env st = (Ok DEFAULT_PATTERNS, st))
  /\ (forall text members,
        config_file st = Some text -> config_read_fails env = false ->
        json_load text = Ok (JObj members) ->
        GitToolConfig_init env st
        = (Ok (default DEFAULT_PATTERNS (PyDict.get "structural_patterns" members)), st))
  /\ (forall text,
        config_file st = Some text -> config_read_fails env = true ->
        exists msg, GitToolConfig_init env st = (Raise (OSError msg), st))
  /\ (forall text e,
        config_file st = Some text -> config_read_fails env = false ->
        json_load text = Raise e ->
        GitToolConfig_init env st = (Raise e, st)).
Proof.
  unfold GitToolConfig_init, _load_config, bind.
  split; [|split; [|split]].
  - intros ->. reflexivity.
  - intros text members -> -> ->. cbn [get_method].
    now destruct (PyDict.get "structural_patterns" members).
  - intros text -> ->. eauto.
  - intros text e -> -> ->. reflexivity.
Qed.

Lemma find_app_list {A} (f : A -> bool) (l1 l2 : list A) :
  List.find f (l1 ++ l2)
  = match List.find f l1 with Some x => Some x | None => List.find f l2 end.
Proof.
  induction l1 as [|x l1 IH]; [reflexivity|]. cbn [app List.find].
  destruct (f x); [reflexivity | exact IH].
Qed.

Lemma find_none_all {A} (f : A -> bool) (l : list A) :
  (forall x, In x l -> f x = false) -> List.find f l = None.
Proof.
  induction l as [|x l IH]; intros Hall; [reflexivity|]. cbn [List.find].
  rewrite (Hall x) by now left. apply IH. intros y Hy. apply Hall. now right.
Qed.

(** The loop over the paths of one pattern stops at the first regular file
    that cannot be read, with the error of that read. *)
Lemma read_matches_run (paths : list string) (d : PyDict.t string) (st : State) :
  read_matches env paths d st
  = match List.find (read_fails env) (regular env st paths) with
    | None => (Ok (contents env st (regular env st paths) d), st)
    | Some path => (Raise (read_error env path), st)
    end.
Proof.
  revert d. induction paths as [|path rest IH]; intros d; [reflexivity|].
  cbn [read_matches]. unfold bind, is_file, gets, read_file, regular.
  cbn [List.filter].
  destruct (file_at env st path) as [content|] eqn:Hf.
  - rewrite bool_decide_eq_true_2 by eauto. cbn [List.find].
    destruct (read_fails env path) eqn:Hr; rewrite ?Hf; [reflexivity|].
    cbn [contents fold_left]. rewrite ?Hf. cbn [default]. apply IH.
  - rewrite bool_decide_eq_false_2 by (intros [? ?]; discriminate). apply IH.
Qed.

Lemma accepted_glob (pattern : string) :
  accepted env pattern = true ->
  glob_paths env pattern = Ok (glob_matched env pattern).
Proof.
  unfold accepted, glob_matched.
  destruct (glob_paths env pattern); [reflexivity | discriminate].
Qed.

Lemma regular_app (st : State) (l1 l2 : list string) :
  regular env st (l1 ++ l2) = (regular env st l1 ++ regular env st l2)%list.
Proof. unfold regular. apply List.filter_app. Qed.

Lemma contents_app (st : State) (l1 l2 : list string) (d : PyDict.t string) :
  contents env st (l1 ++ l2) d = contents env st l2 (contents env st l1 d).
Proof. unfold contents. apply fold_left_app. Qed.

(** With patterns [pathlib] accepts, the collection stops at the first
    matched regular file that cannot be read. *)
Lemma collect_patterns_run (patterns : list string) (d : PyDict.t string) (st : State) :
  (forall pattern, In pattern patterns -> accepted env pattern = true) ->
  collect_patterns env patterns d st
  = match List.find (read_fails env) (regular env st (matched env patterns)) with
    | None => (Ok (contents env st (regular env st (matched env patterns)) d), st)
    | Some path => (Raise (read_error env path), st)
    end.
Proof.
  revert d. induction patterns as [|pattern rest IH]; intros d Hacc; [reflexivity|].
  cbn [collect_patterns matched flat_map]. fold (matched env rest). unfold bind.
  rewrite (accepted_glob pattern) by (apply Hacc; now left).
  rewrite read_matches_run, regular_app, find_app_list.
  destruct (List.find (read_fails env) (regular env st (glob_matched env pattern)));
    [reflexivity|].
  rewrite contents_app. apply IH. intros q Hq. apply Hacc. now right.
Qed.

(** A pattern that [pathlib] refuses raises its error when the collection
    gets to it. *)
Lemma collect_patterns_rejected (pre : list string) (pattern : string)
    (post : list string) (e : Exn) (d : PyDict.t string) (st : State) :
  (forall q, In q pre -> accepted env q = true) ->
  (forall path, In path (regular env st (matched env pre)) ->
                read_fails env path = false) ->
  glob_paths env pattern = Raise e ->
  collect_patterns env (pre ++ pattern :: post) d st = (Raise e, st).
Proof.
  revert d. induction pre as [|q pre IH]; intros d Hacc Hread Hrej.
  - cbn [app collect_patterns]. unfold bind. now rewrite Hrej.
  - cbn [app collect_patterns]. unfold bind.
    rewrite (accepted_glob q) by (apply Hacc; now left).
    cbn [matched flat_map] in Hread. fold (matched env pre) in Hread.
    rewrite regular_app in Hread.
    rewrite read_matches_run, find_none_all
      by (intros x Hx; apply Hread, in_or_app; now left).
    apply IH; [intros x Hx; apply Hacc; now right| |exact Hrej].
    intros x Hx. apply Hread, in_or_app. now right.
Qed.

(** The collection raises as soon as one pattern is refused or one matched
    regular file cannot be read. *)
Lemma collect_patterns_raises (patterns : list string) (d : PyDict.t string)
    (st : State) :
  (exists path, In path (regular env st (matched env patterns))
                /\ read_fails env path = true)
  \/ (exists pattern, In pattern patterns /\ accepted env pattern = false) ->
  exists e, collect_patterns env patterns d st = (Raise e, st).
Proof.
  revert d. induction patterns as [|pattern rest IH]; intros d Hbad.
  - destruct Hbad as [(? & [] & _)|(? & [] & _)].
  - cbn [collect_patterns]. unfold bind.
    destruct (glob_paths env pattern) as [paths|e] eqn:Hglob; [|eauto].
    assert (Hm : glob_matched env pattern = paths).
    { unfold glob_matched. now rewrite Hglob. }
    rewrite read_matches_run.
    destruct (List.find (read_fails env) (regular env st paths)) as [bad|] eqn:Hfind;
      [eauto|].
    apply IH. destruct Hbad as [(path & Hin & Hfail)|(q & Hin & Hrej)].
    + left. exists path. split; [|exact Hfail].
      cbn [matched flat_map] in Hin. fold (matched env rest) in Hin.
      rewrite regular_app, Hm in Hin. apply in_app_or in Hin as [Hin|Hin]; [|exact Hin].
      pose proof (List.find_none _ _ Hfind _ Hin) as Hok. congruence.
    + right. exists q. split; [|exact Hrej]. destruct Hin as [<-|Hin]; [|exact Hin].
      unfold accepted in Hrej. rewrite Hglob in Hrej. discriminate.
Qed.

(** C8.  [get_structural_files] skips the matched paths that are not regular
    files and, when [pathlib] accepts every pattern and every matched
    regular file can be read, returns the mapping from path to content of
    all of them.  It does not skip a file that cannot be read and it has no
    handler: the first matched regular file that cannot be read makes the
    whole call raise the error of that read ([OSError], or
    [UnicodeDecodeError] for a file that is no text), a pattern that
    [pathlib] refuses makes it raise too ([NotImplementedError] for a
    pattern with a root), and then no mapping is returned. *)
Theorem structural_files_cases (structural_patterns : list string) (st : State) :
  let paths := regular env st (matched env structural_patterns) in
  let run := get_structural_files env structural_patterns st in
  ((forall pattern, In pattern structural_patterns -> accepted env pattern = true) ->
   (forall path, In path paths -> read_fails env path = false) ->
   run = (Ok (contents env st paths []), st))
  /\ ((exists path, In path paths /\ read_fails env path = true)
      \/ (exists pattern, In pattern structural_patterns
                          /\ accepted env pattern = false) ->
      exists e, run = (Raise e, st))
  /\ (forall path,
        (forall pattern, In pattern structural_patterns ->
                         accepted env pattern = true) ->
        List.find (read_fails env) paths = Some path ->
        run = (Raise (read_error env path), st))
  /\ (forall pre pattern post,
        structural_patterns = (pre ++ pattern :: post)%list ->
        (forall q, In q pre -> accepted env q = true) ->
        (forall path, In path (regular env st (matched env pre)) ->
                      read_fails env path = false) ->
        PyStr.startswith "/" pattern = true ->
        run = (Raise (NotImplementedError "Non-relative patterns are unsupported"),
               st)).
Proof.
  intros paths run. subst paths run. unfold get_structural_files.
  split; [|split; [|split]].
  - intros Hacc Hall. rewrite collect_patterns_run by exact Hacc.
    now rewrite find_none_all.
  - apply collect_patterns_raises.
  - intros path Hacc Hfind. rewrite collect_patterns_run by exact Hacc.
    now rewrite Hfind.
  - intros pre pattern post -> Hacc Hread Hroot.
    apply collect_patterns_rejected; [exact Hacc|exact Hread|].
    unfold glob_paths. now rewrite Hroot.
Qed.

(** ** What the writes of [apply_changes] leave *)

Lemma stored_snoc (items : list (string * string)) (name content : string)
    (st : State) :
  stored env (items ++ [(name, content)]) st
  = store env name content (stored env items st).
Proof. unfold stored. now rewrite fold_left_app. Qed.

Lemma stored_cons (items : list (string * string)) (name content : string)
    (st : State) :
  stored env ((name, content) :: items) st
  = stored env items (store env name content st).
Proof. reflexivity. Qed.

Lemma last_write_snoc (items : list (string * string)) (q c name : string) :
  last_write name (items ++ [(q, c)])
  = if String.eqb q name then Some c else last_write name items.
Proof.
  unfold last_write. rewrite rev_app_distr. cbn [rev app List.find fst].
  now destruct (String.eqb q name).
Qed.

(** A write touches the session in memory, the log and the printed lines
    never. *)
Lemma store_frame (name content : string) (st : State) :
  session (store env name content st) = session st
  /\ log (store env name content st) = log st
  /\ stdout (store env name content st) = stdout st.
Proof. unfold store. now destruct (inside_git name). Qed.

Lemma stored_frame (items : list (string * string)) (st : State) :
  session (stored env items st) = session st
  /\ log (stored env items st) = log st
  /\ stdout (stored env items st) = stdout st.
Proof.
  revert st. induction items as [|[q c] items IH]; intros st; [auto|].
  rewrite stored_cons. destruct (IH (store env q c st)) as (-> & -> & ->).
  apply store_frame.
Qed.

Lemma failed_store_frame (name : string) (st : State) :
  session (failed_store env name st) = session st
  /\ log (failed_store env name st) = log st
  /\ stdout (failed_store env name st) = stdout st.
Proof.
  unfold failed_store. destruct (mkdir_fails env name); [auto|].
  destruct (write_outcome env name); auto using store_frame.
Qed.

(** A file outside [.git] holds what was last written to it. *)
Lemma store_lookup (q c name : string) (st : State) :
  inside_git name = false ->
  files (store env q c st) !! name
  = if String.eqb q name then Some c else files st !! name.
Proof.
  intros Hout. unfold store. destruct (inside_git q) eqn:Hq.
  - cbn [files set_git_dir]. destruct (String.eqb_spec q name) as [->|]; [congruence|].
    reflexivity.
  - cbn [files set_files]. destruct (String.eqb_spec q name) as [->|Hne].
    + apply lookup_insert_eq.
    + now apply lookup_insert_ne.
Qed.

Lemma stored_lookup (items : list (string * string)) (name : string) (st : State) :
  inside_git name = false ->
  files (stored env items st) !! name = after_writes items name (files st !! name).
Proof.
  intros Hout. induction items as [|[q c] items IH] using rev_ind; [reflexivity|].
  rewrite stored_snoc, store_lookup by exact Hout. unfold after_writes.
  rewrite last_write_snoc. destruct (String.eqb q name); [reflexivity|exact IH].
Qed.

Lemma failed_store_lookup (q name : string) (st : State) :
  q <> name -> inside_git name = false ->
  files (failed_store env q st) !! name = files st !! name.
Proof.
  intros Hne Hout. unfold failed_store. destruct (mkdir_fails env q); [reflexivity|].
  destruct (write_outcome env q); try reflexivity.
  rewrite store_lookup by exact Hout.
  destruct (String.eqb_spec q name); [contradiction|reflexivity].
Qed.

(** Writes outside [.git] leave the repository, the persisted session and
    the configuration alone. *)
Lemma store_outside (q c : string) (st : State) :
  inside_git q = false ->
  store env q c st = set_files (<[q := c]> (files st)) st.
Proof. intros Hq. unfold store. now rewrite Hq. Qed.

Lemma stored_outside (items : list (string * string)) (st : State) :
  outside_git items = true ->
  stored env items st = set_files (written items (files st)) st.
Proof.
  revert st. induction items as [|[q c] items IH]; intros st Hout.
  - now destruct st.
  - cbn [outside_git forallb fst] in Hout. apply andb_prop in Hout as [Hq Hout].
    apply negb_true_iff in Hq. rewrite stored_cons, store_outside by exact Hq.
    rewrite IH by exact Hout. reflexivity.
Qed.

Lemma failed_store_outside (q : string) (st : State) :
  inside_git q = false ->
  repo (failed_store env q st) = repo st
  /\ session_file (failed_store env q st) = session_file st
  /\ config_file (failed_store env q st) = config_file st.
Proof.
  intros Hq. unfold failed_store. destruct (mkdir_fails env q); [auto|].
  destruct (write_outcome env q); auto. now rewrite store_outside.
Qed.

(** The loop of [apply_changes]: it writes the entries in order, each to
    the file its key reaches, and stops at the first one that fails. *)
Lemma write_changes_run (items : list (string * string)) (st : State) :
  (write_changes env items st = (Ok tt, stored env (located env items) st)
   /\ (forall p, In p (PyDict.keys items) -> write_ok env p = true))
  \/ (exists msg done p c rest,
        items = (done ++ (p, c) :: rest)%list
        /\ (forall q, In q (PyDict.keys done) -> write_ok env q = true)
        /\ write_ok env p = false
        /\ write_changes env items st
           = (Raise (OSError msg),
              failed_store env (locate env p) (stored env (located env done) st))).
Proof.
  revert st. induction items as [|[p c] items IH]; intros st.
  - left. split; [reflexivity|]. intros ? [].
  - cbn [write_changes]. unfold bind, mkdir_parent, write_file.
    destruct (mkdir_fails env (locate env p)) eqn:Hm.
    { right. exists ("cannot create parent of " +:+ locate env p), [], p, c, items.
      unfold write_ok, failed_store. rewrite Hm.
      repeat split; auto; intros ? []. }
    destruct (write_outcome env (locate env p)) as [| |residue] eqn:Hw.
    + destruct (IH (store env (locate env p) c st))
        as [[-> Hall]|(msg & done & q & cq & rest & -> & Hall & Hq & ->)].
      * left. split; [reflexivity|].
        intros q [<-|Hq]; [|auto]. unfold write_ok. cbn [fst]. now rewrite Hm, Hw.
      * right. exists msg, ((p, c) :: done), q, cq, rest.
        split; [reflexivity|]. split; [|split; [exact Hq|reflexivity]].
        intros q' [<-|Hq']; [|auto]. unfold write_ok. cbn [fst]. now rewrite Hm, Hw.
    + right. exists ("cannot open " +:+ locate env p), [], p, c, items.
      unfold write_ok, failed_store. rewrite Hm, Hw.
      repeat split; auto; intros ? [].
    + right. exists ("write failed: " +:+ locate env p), [], p, c, items.
      unfold write_ok, failed_store. rewrite Hm, Hw.
      repeat split; auto; intros ? [].
Qed.

(** C9.  [apply_changes] returns [True] exactly when the write of every entry
    succeeds, and then the state is the one the writes give, each to the
    file its key reaches.  Otherwise it returns [False] at the first entry
    whose write fails: the state is the one the entries before it give,
    with what the failed write left and the logged error; nothing is
    reverted and the entries after it are not written.  So a file outside
    [.git] other than that of the failed entry holds the content of the
    last entry written to it, or what it held when there is none. *)
Theorem apply_changes_all_or_abort (changes : PyDict.t string) (st : State) :
  let r := apply_changes env changes st in
  exists ok,
    fst r = Ok ok
    /\ (ok = true
        <-> forall p, In p (PyDict.keys changes) -> write_ok env p = true)
    /\ (ok = true ->
        snd r = stored env (located env changes) st
        /\ forall name, inside_git name = false ->
             files (snd r) !! name
             = after_writes (located env changes) name (files st !! name))
    /\ (ok = false ->
        exists done p c rest msg,
          changes = (done ++ (p, c) :: rest)%list
          /\ (forall q, In q (PyDict.keys done) -> write_ok env q = true)
          /\ write_ok env p = false
          /\ snd r
             = add_log ("ERROR - Failed to apply changes: " +:+ msg)
                 (failed_store env (locate env p) (stored env (located env done) st))
          /\ forall name, inside_git name = false -> name <> locate env p ->
               files (snd r) !! name
               = after_writes (located env done) name (files st !! name)).
Proof.
  intros r. subst r. unfold apply_changes. run_monad.
  destruct (write_changes_run changes st)
    as [[-> Hall]|(msg & done & p & c & rest & -> & Hall & Hp & ->)].
  - exists true. cbn [fst snd]. split; [reflexivity|].
    split; [tauto|]. split; [|discriminate]. intros _. split; [reflexivity|].
    intros name Hout. now apply stored_lookup.
  - exists false. cbn [fst snd exn_str]. split; [reflexivity|].
    split; [|split; [discriminate|]].
    + split; [discriminate|]. intros Hall'.
      rewrite Hall' in Hp; [discriminate|].
      unfold PyDict.keys. rewrite map_app. apply in_or_app. right. now left.
    + intros _. exists done, p, c, rest, msg.
      repeat split; try assumption.
      intros name Hout Hne. cbn [files add_log].
      rewrite failed_store_lookup by (assumption || congruence).
      now apply stored_lookup.
Qed.

End FilesAndConfig.

(** * The claims on concrete runs *)

Section Runs.
Import PyStr.

Lemma example_pickle_roundtrip (s : Session) : pickle_load (pickle_dump s) = Ok s.
Proof.
  cbn [pickle_load pickle_dump example_codecs]. rewrite decode_encode.
  destruct s as [b c h t]. unfold session_tuple, tuple_session. cbn.
  f_equal. f_equal. induction h as [|[ts p ch cm] h IH]; [reflexivity|].
  cbn. now rewrite IH.
Qed.

Lemma parse_single_section_witness :
  _parse_ollama_response
    [("response",
      ("Intro text" +:+ nl) +:+ FILE_MARK
      +:+ join nl ["a.py"; "```"; "print(1)"; "```"])]
  = Ok [(section_filename (join nl ["a.py"; "```"; "print(1)"; "```"]),
         section_content (join nl ["a.py"; "```"; "print(1)"; "```"]))].
Proof.
  apply (proj1 parse_single_section); vm_compute; reflexivity.
Defined.

Lemma malformed_sections_skipped_witness :
  parse_section [("a.py", "print(1)")] (join nl ["b.py"; "```"; "print(2)"])
  = [("a.py", "print(1)")].
Proof.
  apply (proj1 malformed_sections_skipped). vm_compute. reflexivity.
Defined.

Lemma marker_needs_space_witness :
  _parse_ollama_response [("response", nospace_response)] = Raise no_changes.
Proof.
  apply (proj1 marker_needs_space). vm_compute. reflexivity.
Defined.

(** C1, against the claim as stated: on a repository without a session, the
    branch [feature/x] is created and checked out, the session is
    persisted, and then the documentation log cannot be opened.
    [create_branch] returns [False] and the new session is both in memory
    and on disk. *)
Lemma create_branch_doc_failure_keeps_session :
  let r := create_branch no_docs_subdir_env "feature/x" fresh_state in
  session fresh_state = None
  /\ session_file fresh_state = None
  /\ fst r = Ok false
  /\ session (snd r) = Some (new_session no_docs_subdir_env "feature/x")
  /\ session_file (snd r)
     = Some (pickle_dump (new_session no_docs_subdir_env "feature/x"))
  /\ session (snd r) <> None
  /\ session_file (snd r) <> None.
Proof.
  vm_compute. repeat split; discriminate.
Qed.

Lemma create_branch_failure_witness :
  fst (create_branch no_docs_subdir_env "feature/x" fresh_state) = Ok false
  /\ session (snd (create_branch no_docs_subdir_env "feature/x" fresh_state))
     = Some (new_session no_docs_subdir_env "feature/x")
  /\ session_file (snd (create_branch no_docs_subdir_env "feature/x" fresh_state))
     = Some (pickle_dump (new_session no_docs_subdir_env "feature/x")).
Proof.
  destruct (create_branch_failure no_docs_subdir_env "feature/x" fresh_state)
    as (_ & _ & Hlate).
  destruct Hlate as (Hs & _ & Hsaved).
  - intros [Hc|[Hc|[Hc|[Hc|Hc]]]]; vm_compute in Hc;
      [destruct Hc as [? Hc]|..]; discriminate.
  - destruct (Hsaved eq_refl) as (Hfile & Hfalse & _).
    split; [|split; [exact Hs|exact Hfile]].
    apply Hfalse. vm_compute. discriminate.
Defined.

(** C4: git refuses the merge of [feat] into [main] without starting one.
    The tool was on [feat]; [merge_to_main] raises [GitCommandError] from
    [merge --abort] and leaves the repository on [main]. *)
Theorem merge_refused_not_recovered :
  let r := merge_to_main refused_merge_env feat_state in
  HEAD (repo feat_state) = Some "feat"
  /\ fst r = Raise (GitCommandError
                      "fatal: There is no merge to abort (MERGE_HEAD missing).")
  /\ HEAD (repo (snd r)) = Some "main"
  /\ heads (repo (snd r)) = heads (repo feat_state)
  /\ session (snd r) = session feat_state.
Proof. vm_compute. repeat split. Qed.

(** C5, against the claim as stated: with an active session on [feat] whose
    documentation log cannot be opened, [update_documentation] returns and
    logs the failure, and the history of the session has no new record. *)
Lemma documentation_failure_loses_record :
  let r := update_documentation no_doc_log_env "add a" [("a.py", "print(1)")]
             "abc123" feat_state in
  fst r = Ok tt
  /\ (changes_history <$> session (snd r)) = Some []
  /\ session (snd r) = session feat_state
  /\ log (snd r)
     = ["ERROR - Failed to update documentation: cannot open ai-tool-docs/feat.md"].
Proof. vm_compute. repeat split. Qed.

Lemma documentation_failure_drops_record_witness :
  fst (update_documentation no_doc_log_env "add a" [("a.py", "print(1)")]
         "abc123" feat_state) = Ok tt.
Proof.
  apply (documentation_failure_drops_record no_doc_log_env "add a"
           [("a.py", "print(1)")] "abc123" feat_state feat_session).
  reflexivity.
Defined.

(** A restart: the tool holds no session in memory and loads the file that
    the save left. *)
Lemma save_load_roundtrip_witness :
  exists loaded,
    fst (_load_session calm_env
           (set_session None (snd (_save_session calm_env feat_state))))
    = Ok (Some loaded)
    /\ branch loaded = "feat"
    /\ context_files loaded = {["README.md"]}
    /\ changes_history loaded = []
    /\ created_at loaded = "2025-01-01 11:00:00.000000".
Proof.
  apply (proj1 (proj2 (proj2 (proj2
           (save_load_roundtrip calm_env feat_session feat_state
              (set_session None (snd (_save_session calm_env feat_state)))
              eq_refl eq_refl eq_refl eq_refl))))).
  apply example_pickle_roundtrip.
Defined.

(** C7, against the claim as stated: a configuration file that is not JSON,
    and one that cannot be opened, make the loader raise. *)
Lemma load_config_failure_raises :
  fst (GitToolConfig_init calm_env broken_config_state)
  = Raise (JSONDecodeError
             "Expecting property name enclosed in double quotes: line 1 column 2 (char 1)")
  /\ fst (GitToolConfig_init config_unreadable_env empty_config_state)
     = Raise (OSError "cannot open ai-tool-config.json").
Proof. vm_compute. split; reflexivity. Qed.

Lemma load_config_cases_witness :
  GitToolConfig_init calm_env fresh_state = (Ok DEFAULT_PATTERNS, fresh_state)
  /\ GitToolConfig_init calm_env empty_config_state
     = (Ok DEFAULT_PATTERNS, empty_config_state).
Proof.
  split.
  - apply (proj1 (load_config_cases calm_env fresh_state)). reflexivity.
  - apply (proj1 (proj2 (load_config_cases calm_env empty_config_state)) "{}" []);
      reflexivity.
Defined.

(** C8, against the claim as stated: of two matched manifests the second
    cannot be read, or holds bytes that are no text; the call raises and
    returns no mapping, also not the content of the first. *)
Lemma unreadable_manifest_is_fatal :
  fst (get_structural_files unreadable_manifest_env ["requirements.txt"]
         manifests_state)
  = Raise (OSError "cannot read sub/requirements.txt")
  /\ fst (get_structural_files binary_manifest_env ["requirements.txt"]
            manifests_state)
     = Raise (UnicodeDecodeError
                "'utf-8' codec can't decode byte 0xff in position 0: invalid start byte").
Proof. vm_compute. split; reflexivity. Qed.

Lemma structural_files_cases_witness :
  get_structural_files unreadable_manifest_env ["requirements.txt"] manifests_state
  = (Raise (read_error unreadable_manifest_env "sub/requirements.txt"),
     manifests_state)
  /\ get_structural_files calm_env ["requirements.txt"; "/etc/hostname"]
       manifests_state
     = (Raise (NotImplementedError "Non-relative patterns are unsupported"),
        manifests_state).
Proof.
  split.
  - apply (proj1 (proj2 (proj2 (structural_files_cases unreadable_manifest_env
                                  ["requirements.txt"] manifests_state)))).
    + intros pattern [<-|[]]. reflexivity.
    + vm_compute. reflexivity.
  - apply (proj2 (proj2 (proj2 (structural_files_cases calm_env
                                  ["requirements.txt"; "/etc/hostname"]
                                  manifests_state)))
             ["requirements.txt"] "/etc/hostname" []).
    + reflexivity.
    + intros q [<-|[]]. reflexivity.
    + intros path _. reflexivity.
    + reflexivity.
Defined.

Lemma apply_changes_all_or_abort_witness :
  exists ok,
    fst (apply_changes readonly_b_env three_edits feat_state) = Ok ok
    /\ (ok = true
        <-> forall p, In p (PyDict.keys three_edits) ->
                      write_ok readonly_b_env p = true).
Proof.
  destruct (apply_changes_all_or_abort readonly_b_env three_edits feat_state)
    as (ok & Hr & Hok & _).
  exists ok. split; assumption.
Defined.

End Runs.

(** * More about the response parser *)

Module ParserMore.
Import PyStr PyStrFacts ParserFacts.

Lemma get_set_eq {V} (k : string) (v : V) (d : PyDict.t V) :
  PyDict.get k (PyDict.set k v d) = Some v.
Proof.
  induction d as [|[k' v'] d IH]; simpl.
  - now rewrite String.eqb_refl.
  - destruct (String.eqb k k') eqn:E; simpl; rewrite E; [reflexivity | exact IH].
Qed.

Lemma get_set_ne {V} (k k0 : string) (v : V) (d : PyDict.t V) :
  k <> k0 -> PyDict.get k (PyDict.set k0 v d) = PyDict.get k d.
Proof.
  intros Hne. induction d as [|[k' v'] d IH]; simpl.
  - now apply String.eqb_neq in Hne as ->.
  - destruct (String.eqb_spec k0 k') as [<-|Hk]; simpl.
    + now apply String.eqb_neq in Hne as ->.
    + now rewrite IH.
Qed.

Lemma in_keys_set {V} (x k : string) (v : V) (d : PyDict.t V) :
  In x (PyDict.keys (PyDict.set k v d)) -> x = k \/ In x (PyDict.keys d).
Proof.
  unfold PyDict.keys. intros Hin. apply in_map_iff in Hin as ([x' v'] & <- & Hin).
  apply in_set in Hin as [->|Hin]; [now left | right].
  now apply (in_map fst) in Hin.
Qed.

Lemma keys_set_NoDup {V} (k : string) (v : V) (d : PyDict.t V) :
  NoDup (PyDict.keys d) -> NoDup (PyDict.keys (PyDict.set k v d)).
Proof.
  induction d as [|[k' v'] d IH]; simpl; intros Hnd.
  - apply NoDup_singleton.
  - apply NoDup_cons in Hnd as [Hk' Hnd].
    destruct (String.eqb_spec k k') as [->|Hne]; simpl.
    + apply NoDup_cons. auto.
    + apply NoDup_cons. split; [|auto].
      intros Hin. apply list_elem_of_In, in_keys_set in Hin as [->|Hin]; [congruence|].
      apply Hk'. now apply list_elem_of_In.
Qed.

Lemma length_set {V} (k : string) (v : V) (d : PyDict.t V) :
  (length (PyDict.set k v d) <= S (length d))%nat.
Proof.
  induction d as [|[k' v'] d IH]; simpl; [lia|].
  destruct (String.eqb k k'); simpl; lia.
Qed.

Lemma get_parse_section (k : string) (d : PyDict.t string) (sec : string) :
  PyDict.get k (parse_section d sec)
  = if fences_located sec && String.eqb (section_filename sec) k
    then Some (section_content sec) else PyDict.get k d.
Proof.
  destruct (fences_located sec) eqn:E; cbn [andb].
  - rewrite parse_section_located by assumption.
    destruct (String.eqb_spec (section_filename sec) k) as [<-|Hne].
    + apply get_set_eq.
    + apply get_set_ne. congruence.
  - now rewrite parse_section_skip.
Qed.

Lemma find_snoc {A} (f : A -> bool) (l : list A) (x : A) :
  List.find f (l ++ [x])
  = match List.find f l with
    | Some y => Some y
    | None => if f x then Some x else None
    end.
Proof.
  induction l as [|y l IH]; simpl; [reflexivity|]. now destruct (f y).
Qed.

Lemma get_fold_parse (k : string) (sections : list string) (d : PyDict.t string) :
  PyDict.get k (fold_left parse_section sections d)
  = match latest_section k sections with
    | Some sec => Some (section_content sec)
    | None => PyDict.get k d
    end.
Proof.
  revert d. induction sections as [|sec secs IH]; intros d; [reflexivity|].
  cbn [fold_left]. rewrite IH. unfold latest_section. cbn [rev].
  rewrite find_snoc.
  destruct (List.find _ (rev secs)); [reflexivity|].
  rewrite get_parse_section.
  now destruct (fences_located sec && String.eqb (section_filename sec) k).
Qed.

Lemma fold_parse_NoDup (sections : list string) (d : PyDict.t string) :
  NoDup (PyDict.keys d) -> NoDup (PyDict.keys (fold_left parse_section sections d)).
Proof.
  revert d. induction sections as [|sec secs IH]; intros d Hd; [assumption|].
  cbn [fold_left]. apply IH. destruct (fences_located sec) eqn:E.
  - rewrite parse_section_located by assumption. now apply keys_set_NoDup.
  - now rewrite parse_section_skip.
Qed.

Lemma fold_parse_length (sections : list string) (d : PyDict.t string) :
  (length (fold_left parse_section sections d)
   <= length d + length (List.filter fences_located sections))%nat.
Proof.
  revert d. induction sections as [|sec secs IH]; intros d; [simpl; lia|].
  cbn [fold_left List.filter]. specialize (IH (parse_section d sec)).
  destruct (fences_located sec) eqn:E.
  - rewrite parse_section_located in * by assumption.
    pose proof (length_set (section_filename sec) (section_content sec) d).
    simpl. lia.
  - rewrite parse_section_skip in * by assumption. lia.
Qed.

Lemma in_set_entry {V} (k k' : string) (v v' : V) (d : PyDict.t V) :
  In (k, v) (PyDict.set k' v' d) -> (k = k' /\ v = v') \/ In (k, v) d.
Proof.
  induction d as [|[k0 v0] d IH]; simpl.
  - intros [[= <- <-]|[]]. now left.
  - destruct (String.eqb_spec k' k0) as [<-|Hne]; simpl.
    + intros [[= <- <-]|Hin]; [now left | right; now right].
    + intros [Hin|Hin]; [right; now left|].
      destruct (IH Hin) as [?|?]; [now left | right; now right].
Qed.

Lemma fold_parse_entries (sections : list string) (d : PyDict.t string)
    (k v : string) :
  In (k, v) (fold_left parse_section sections d) ->
  In (k, v) d
  \/ exists sec, In sec sections /\ k = section_filename sec
                 /\ v = section_content sec.
Proof.
  revert d. induction sections as [|sec secs IH]; intros d Hin; [now left|].
  cbn [fold_left] in Hin. destruct (IH _ Hin) as [Hd|(sec' & Hs & -> & ->)].
  - destruct (fences_located sec) eqn:E.
    + rewrite parse_section_located in Hd by assumption.
      apply in_set_entry in Hd as [[-> ->]|Hd]; [|now left].
      right. exists sec. simpl. auto.
    + rewrite parse_section_skip in Hd by assumption. now left.
  - right. exists sec'. simpl. auto.
Qed.

(** *** Trimmed text *)

Lemma lstrip_clean (s : string) : starts_clean (lstrip s).
Proof.
  induction s as [|c s IH]; simpl; [trivial|].
  destruct (isspace c) eqn:E; [assumption | exact E].
Qed.

Lemma lstrip_of_clean (s : string) : starts_clean s -> lstrip s = s.
Proof. destruct s as [|c s]; simpl; [reflexivity|]. now intros ->. Qed.

Lemma rstrip_clean (s : string) : starts_clean s -> starts_clean (rstrip s).
Proof.
  destruct s as [|c s]; simpl; [trivial|]. intros Hc.
  destruct (rstrip s); [rewrite Hc|]; exact Hc.
Qed.

Lemma rstrip_idem (s : string) : rstrip (rstrip s) = rstrip s.
Proof.
  induction s as [|c s IH]; [reflexivity|]. cbn [rstrip].
  destruct (rstrip s) as [|x r] eqn:E.
  - destruct (isspace c) eqn:Ec; [reflexivity|]. cbn [rstrip]. now rewrite Ec.
  - cbn [rstrip]. cbn [rstrip] in IH. now rewrite IH.
Qed.

Lemma strip_idem (s : string) : strip (strip s) = strip s.
Proof.
  unfold strip. rewrite (lstrip_of_clean (rstrip (lstrip s))).
  - apply rstrip_idem.
  - apply rstrip_clean, lstrip_clean.
Qed.

Lemma no_char_lstrip (c : ascii) (s : string) :
  no_char c s = true -> no_char c (lstrip s) = true.
Proof.
  induction s as [|x s IH]; simpl; [trivial|]. intros Hs.
  destruct (isspace x); [|exact Hs].
  apply andb_prop in Hs as [_ Hs]. auto.
Qed.

Lemma no_char_rstrip (c : ascii) (s : string) :
  no_char c s = true -> no_char c (rstrip s) = true.
Proof.
  induction s as [|x s IH]; [trivial|]. cbn [rstrip no_char]. intros Hs.
  apply andb_prop in Hs as [Hx Hs]. specialize (IH Hs).
  destruct (rstrip s) as [|y r].
  - destruct (isspace x); [reflexivity|]. cbn [no_char]. now rewrite Hx.
  - cbn [no_char] in *. now rewrite Hx, IH.
Qed.

Lemma no_char_take (c : ascii) (n : nat) (s : string) :
  no_char c s = true -> no_char c (take n s) = true.
Proof.
  revert s. induction n as [|n IH]; intros [|x s]; simpl; auto.
  intros Hs. apply andb_prop in Hs as [-> Hs]. simpl. auto.
Qed.

Lemma startswith_nl (c : ascii) (s : string) :
  startswith nl (String c s) = Ascii.eqb newline c.
Proof.
  change nl with (String newline ""). rewrite startswith_cons.
  cbn [startswith]. apply andb_true_r.
Qed.

(** The text before the first newline has no newline. *)
Lemma first_newline (s : string) (i : Z) :
  0 <= i ->
  (find_from nl s i = -1 /\ no_char newline s = true)
  \/ (exists n, find_from nl s i = i + Z.of_nat n
                /\ (n <= String.length s)%nat
                /\ no_char newline (take n s) = true).
Proof.
  revert i. induction s as [|c s IH]; intros i Hi.
  - left. split; reflexivity.
  - cbn [find_from]. rewrite startswith_nl.
    destruct (Ascii.eqb newline c) eqn:E.
    + right. exists 0%nat. split; [cbn [Z.of_nat]; lia|].
      split; [cbn [String.length]; lia | reflexivity].
    + destruct (IH (i + 1)) as [[Hf Hn]|(n & Hf & Hlen & Hn)]; [lia|..].
      * left. split; [exact Hf|]. cbn [no_char]. now rewrite E, Hn.
      * right. exists (S n). split; [rewrite Hf; lia|].
        split; [cbn [String.length]; lia|]. cbn [take no_char]. now rewrite E, Hn.
Qed.

Lemma slice_prefix (n : nat) (s : string) :
  (n <= String.length s)%nat -> slice 0 (Z.of_nat n) s = take n s.
Proof.
  intros Hn. unfold slice, clamp. change (0 <? 0) with false. cbv iota.
  assert (E : (Z.of_nat n <? 0) = false) by (apply Z.ltb_ge; lia). rewrite E.
  assert (Hlen : Z.of_nat n <= len s) by (unfold len; lia).
  rewrite (Z.min_r (len s) 0) by (unfold len; lia).
  rewrite (Z.min_r (len s) (Z.of_nat n)) by exact Hlen.
  rewrite (Z.max_r 0 (Z.of_nat n)) by lia.
  change (Z.max 0 0) with 0. rewrite Z.sub_0_r, Nat2Z.id.
  now destruct s.
Qed.

Lemma section_filename_one_line (sec : string) :
  no_char newline (section_filename sec) = true.
Proof.
  unfold section_filename, split1, strip, find.
  apply no_char_rstrip, no_char_lstrip.
  destruct (first_newline sec 0) as [[Hf Hn]|(n & Hf & Hlen & Hn)]; [lia|..].
  - rewrite Hf. exact Hn.
  - rewrite Hf. destruct (0 + Z.of_nat n <? 0) eqn:E; [lia|]. cbn [hd].
    rewrite Z.add_0_l, slice_prefix by assumption. exact Hn.
Qed.

(** X1.  When several sections name the same file, the later one wins: the
    content recorded for a path is that of the last section with located
    fences whose first line, trimmed, is that path, and a path that no such
    section names has no entry. *)
Theorem later_section_overwrites (content : string) (changes : PyDict.t string)
    (k : string) :
  _parse_ollama_response [("response", content)] = Ok changes ->
  PyDict.get k changes
  = section_content <$> latest_section k (tl (split FILE_MARK content)).
Proof.
  rewrite parse_response_content. unfold parse_content, parse_sections.
  destruct (PyDict.is_empty _); [discriminate|]. intros [= <-].
  rewrite get_fold_parse. now destruct (latest_section k _).
Qed.

(** X2.  The mapping the parser returns is never empty, holds each path
    once, and has at most one entry per section with located fences; every
    path in it is a single line without white space around it, and every
    content is trimmed. *)
Theorem parsed_changes_wellformed (content : string) (changes : PyDict.t string) :
  _parse_ollama_response [("response", content)] = Ok changes ->
  changes <> []
  /\ NoDup (PyDict.keys changes)
  /\ (length changes
      <= length (List.filter fences_located (tl (split FILE_MARK content))))%nat
  /\ (forall k v, In (k, v) changes ->
        strip k = k /\ no_char newline k = true /\ strip v = v).
Proof.
  rewrite parse_response_content. unfold parse_content, parse_sections.
  destruct (PyDict.is_empty _) eqn:E; [discriminate|]. intros [= <-].
  split; [|split; [|split]].
  - intros Hnil. rewrite Hnil in E. discriminate.
  - apply fold_parse_NoDup. constructor.
  - apply (fold_parse_length _ []).
  - intros k v Hin. apply fold_parse_entries in Hin as [[]|(sec & _ & -> & ->)].
    split; [|split].
    + apply strip_idem.
    + apply section_filename_one_line.
    + apply strip_idem.
Qed.

End ParserMore.

(** * More about the context files, the session and its store *)

Section StoreMore.
Import ParserMore.
Context `{Codecs}.
Variable env : Env.

Lemma contents_cons (st : State) (q : string) (paths : list string)
    (d : PyDict.t string) :
  contents env st (q :: paths) d
  = contents env st paths (PyDict.set q (default "" (file_at env st q)) d).
Proof. reflexivity. Qed.

Lemma get_contents_notin (st : State) (paths : list string) (d : PyDict.t string)
    (p : string) :
  ~ In p paths -> PyDict.get p (contents env st paths d) = PyDict.get p d.
Proof.
  revert d. induction paths as [|q paths IH]; intros d Hp; [reflexivity|].
  rewrite contents_cons.
  rewrite IH by (simpl in Hp; tauto).
  apply get_set_ne. simpl in Hp. intros ->. tauto.
Qed.

Lemma get_contents_in (st : State) (paths : list string) (d : PyDict.t string)
    (p : string) :
  In p paths ->
  PyDict.get p (contents env st paths d) = Some (default "" (file_at env st p)).
Proof.
  revert d. induction paths as [|q paths IH]; intros d Hp; [destruct Hp|].
  rewrite contents_cons.
  destruct (in_dec string_dec p paths) as [Hin|Hnin]; [now apply IH|].
  destruct Hp as [->|Hp]; [|contradiction].
  rewrite get_contents_notin by assumption. apply get_set_eq.
Qed.

Lemma contents_NoDup (st : State) (paths : list string) (d : PyDict.t string) :
  NoDup (PyDict.keys d) -> NoDup (PyDict.keys (contents env st paths d)).
Proof.
  revert d. induction paths as [|q paths IH]; intros d Hd; [assumption|].
  rewrite contents_cons.
  apply IH. now apply keys_set_NoDup.
Qed.

(** X3.  When [pathlib] accepts every pattern and every matched regular
    file can be read, the mapping of [get_structural_files] holds each of
    them once, under the path it was matched with and with the content the
    file has, whatever the number of patterns that match it, and nothing
    else. *)
Theorem structural_files_lookup (structural_patterns : list string) (st : State) :
  let paths := regular env st (matched env structural_patterns) in
  (forall pattern, In pattern structural_patterns -> accepted env pattern = true) ->
  (forall path, In path paths -> read_fails env path = false) ->
  exists d,
    get_structural_files env structural_patterns st = (Ok d, st)
    /\ NoDup (PyDict.keys d)
    /\ (forall p, In p paths -> PyDict.get p d = file_at env st p)
    /\ (forall p, ~ In p paths -> PyDict.get p d = None).
Proof.
  intros paths Hacc Hall. unfold get_structural_files.
  rewrite collect_patterns_run by exact Hacc. fold paths.
  rewrite find_none_all by exact Hall.
  exists (contents env st paths []). split; [reflexivity|].
  split; [apply contents_NoDup; constructor|]. split.
  - intros p Hp. rewrite get_contents_in by assumption.
    unfold paths, regular in Hp. apply filter_In in Hp as [_ Hp].
    apply bool_decide_eq_true in Hp as [c Hc]. now rewrite Hc.
  - intros p Hp. now rewrite get_contents_notin.
Qed.

(** X4.  [Session.from_dict] undoes [Session.to_dict]: every session is
    rebuilt from its dict, equal in its four fields. *)
Theorem from_dict_to_dict (s : Session) : from_dict (to_dict s) = Built s.
Proof.
  destruct s as [b c h t]. unfold to_dict, from_dict. cbn.
  now rewrite list_to_set_elements_L.
Qed.

(** X5.  [Session.from_dict] needs the four keys: when one of them is
    missing it raises the [KeyError] of the first missing one and builds no
    session, and so it reports only keys that are missing.  The order and
    the repetitions of the paths listed under [context_files] do not
    matter. *)
Theorem from_dict_keys (data : PyDict.t Field) :
  (forall key, from_dict data = KeyError key ->
               In key session_keys /\ PyDict.get key data = None)
  /\ ((exists key, In key session_keys /\ PyDict.get key data = None) ->
      forall s, from_dict data <> Built s)
  /\ (forall b l1 l2 h t,
        (forall x, In x l1 <-> In x l2) ->
        from_dict [("branch", FStr b); ("context_files", FPaths l1);
                   ("changes_history", FHistory h); ("created_at", FStr t)]
        = from_dict [("branch", FStr b); ("context_files", FPaths l2);
                     ("changes_history", FHistory h); ("created_at", FStr t)]).
Proof.
  split; [|split].
  - intros key. unfold from_dict, session_keys.
    destruct (PyDict.get "branch" data) as [[]|] eqn:E1;
      [|discriminate|discriminate|intros [= <-]; simpl; auto].
    destruct (PyDict.get "context_files" data) as [[]|] eqn:E2;
      [discriminate| |discriminate|intros [= <-]; simpl; auto].
    destruct (PyDict.get "changes_history" data) as [[]|] eqn:E3;
      [discriminate|discriminate| |intros [= <-]; simpl; auto].
    destruct (PyDict.get "created_at" data) as [[]|] eqn:E4;
      [discriminate|discriminate|discriminate|intros [= <-]; simpl; auto 6].
  - intros (key & Hin & Hnone) s. unfold from_dict, session_keys in *.
    simpl in Hin.
    destruct Hin as [<-|[<-|[<-|[<-|[]]]]];
      repeat match goal with
             | |- context [match PyDict.get ?k data with _ => _ end] =>
                 destruct (PyDict.get k data) as [[]|] eqn:?
             end; congruence.
  - intros b l1 l2 h t Hl. unfold from_dict. cbn. do 2 f_equal.
    apply set_eq. intros x. rewrite !elem_of_list_to_set, !list_elem_of_In.
    apply Hl.
Qed.

(** X6.  [_load_session] never raises and changes nothing but the log: it
    returns a session exactly when the session file exists, can be read and
    unpickles to that session; a file that cannot be read or decoded is
    logged, left in place and treated as no session. *)
Theorem load_session_total (st : State) :
  exists r st',
    _load_session env st = (Ok r, st')
    /\ session_file st' = session_file st
    /\ session st' = session st /\ repo st' = repo st /\ files st' = files st
    /\ (forall s, r = Some s
                  <-> exists b, session_file st = Some b
                                /\ session_read_fails env = false
                                /\ pickle_load b = Ok s)
    /\ (log st' = log st
        <-> session_file st = None \/ exists s, r = Some s).
Proof.
  unfold _load_session. destruct (session_file st) as [b|] eqn:Hb.
  - destruct (session_read_fails env) eqn:Hr.
    + eexists None, _. split; [reflexivity|]. cbn [session_file session repo files log add_log].
      repeat split; try assumption; try discriminate.
      * intros (b' & _ & Hc & _). discriminate.
      * intros Hlog. apply (f_equal length) in Hlog.
        rewrite length_app in Hlog. simpl in Hlog. lia.
      * intros [Hc|[s Hc]]; discriminate.
    + destruct (pickle_load b) as [s|e] eqn:Hp.
      * eexists (Some s), st. split; [reflexivity|].
        repeat split; try assumption; eauto.
        -- intros [= <-]. eauto.
        -- intros (b' & [= <-] & _ & Hs). congruence.
      * eexists None, _. split; [reflexivity|].
        cbn [session_file session repo files log add_log].
        repeat split; try assumption; try discriminate.
        -- intros (b' & [= <-] & _ & Hs). congruence.
        -- intros Hlog. apply (f_equal length) in Hlog.
           rewrite length_app in Hlog. simpl in Hlog. lia.
        -- intros [Hc|[s Hc]]; discriminate.
  - eexists None, st. split; [reflexivity|].
    repeat split; try assumption; try discriminate; auto.
    intros (b' & Hc & _). discriminate.
Qed.

(** X7.  [clear_session] removes the persisted session and ends the
    session in memory, after which [_load_session] finds none; clearing
    again succeeds and changes nothing, also when removing files would
    fail.  When the session file cannot be removed the call raises and the
    session stays active, in memory and on disk. *)
Theorem clear_session_cases (unlink_fails rmtree_fails : bool) (h : Host) :
  (is_Some (session_file (tool h)) -> unlink_fails = true ->
   exists msg, clear_session unlink_fails rmtree_fails h = (Raise (OSError msg), h))
  /\ (session_file (tool h) = None \/ unlink_fails = false ->
      exists h',
        clear_session unlink_fails rmtree_fails h = (Ok tt, h')
        /\ session (tool h') = None
        /\ session_file (tool h') = None
        /\ repo (tool h') = repo (tool h)
        /\ files (tool h') = files (tool h)
        /\ (rmtree_fails = false -> scratch h' = false)
        /\ _load_session env (tool h') = (Ok None, tool h')
        /\ forall unlink_fails', clear_session unlink_fails' rmtree_fails h' = (Ok tt, h')).
Proof.
  unfold clear_session, _load_session. split.
  - intros [b Hb] ->. rewrite Hb. eauto.
  - intros Hcase. destruct (session_file (tool h)) as [b|] eqn:Hb.
    + destruct Hcase as [Hc| ->]; [discriminate|].
      eexists. split; [reflexivity|].
      cbn [tool scratch session session_file repo files set_session set_session_file].
      repeat split.
      * intros ->. apply andb_false_r.
      * intros u. now rewrite <- andb_assoc, andb_diag.
    + eexists. split; [reflexivity|].
      cbn [tool scratch session session_file repo files set_session set_session_file].
      rewrite Hb. repeat split.
      * intros ->. apply andb_false_r.
      * intros u. now rewrite <- andb_assoc, andb_diag.
Qed.

End StoreMore.

(** * More about the lifecycle *)

Section LifecycleMore.
Context `{Codecs}.
Variable env : Env.

(** X8.  [create_branch] returns [True] exactly when the name is not yet a
    branch, HEAD is on a branch with a commit, the branch can be created and
    checked out, and the session and the documentation log can be written.
    Then the new branch is checked out at the commit the tool was on, the
    fresh session is in memory and persisted, the log holds its header, no
    error is logged, and a restart that can read the file loads that
    session. *)
Theorem create_branch_success (branch_name : string) (st : State) :
  let r := create_branch env branch_name st in
  let fresh := new_session env branch_name in
  (fst r = Ok true
   <-> heads (repo st) !! branch_name = None
       /\ (exists cur tip, HEAD (repo st) = Some cur
                           /\ heads (repo st) !! cur = Some tip)
       /\ create_head_fails env branch_name = false
       /\ checkout_fails env branch_name = false
       /\ merging (repo st) = false
       /\ session_write_outcome env = WrOk
       /\ write_outcome env (doc_path branch_name) = WrOk)
  /\ (fst r = Ok true ->
      HEAD (repo (snd r)) = Some branch_name
      /\ (exists cur tip,
            HEAD (repo st) = Some cur /\ heads (repo st) !! cur = Some tip
            /\ heads (repo (snd r)) = <[branch_name := tip]> (heads (repo st)))
      /\ session (snd r) = Some fresh
      /\ session_file (snd r) = Some (pickle_dump fresh)
      /\ files (snd r) = <[doc_path branch_name := doc_header branch_name]> (files st)
      /\ log (snd r) = log st
      /\ (pickle_load (pickle_dump fresh) = Ok fresh ->
          session_read_fails env = false ->
          fst (_load_session env (snd r)) = Ok (Some fresh))).
Proof.
  intros r fresh. subst r fresh.
  unfold create_branch, Git.has_head, Git.active_branch, Git.create_head,
    Git.checkout, _save_session, _init_documentation, write_file, _load_session.
  run_monad. cbn beta zeta. rewrite ?store_doc.
  destruct (bool_decide (is_Some (heads (repo st) !! branch_name))) eqn:Hex.
  { apply bool_decide_eq_true in Hex as [x Hx]. cbn [fst snd].
    split; [split; [discriminate | intros (Hc & _); congruence] | discriminate]. }
  apply bool_decide_eq_false in Hex.
  assert (Hnone : heads (repo st) !! branch_name = None).
  { destruct (heads (repo st) !! branch_name) eqn:E; [|reflexivity].
    exfalso. apply Hex. eauto. }
  destruct (HEAD (repo st)) as [cur|] eqn:Hhead.
  2:{ cbn [fst snd].
      split; [split; [discriminate | intros (_ & (c & t & Hc & _) & _); discriminate]
             | discriminate]. }
  cbn [mbind option_bind]. rewrite Hhead. cbn [mbind option_bind].
  destruct (heads (repo st) !! cur) as [tip|] eqn:Htip.
  2:{ cbn [fst snd].
      split; [split; [discriminate
                     | intros (_ & (c & t & [= <-] & Hc) & _); congruence]
             | discriminate]. }
  destruct (create_head_fails env branch_name) eqn:Hcreate.
  { cbn [orb fst snd]. split; [split; [discriminate | intros (_ & _ & Hc & _); discriminate]
                              | discriminate]. }
  rewrite bool_decide_eq_false_2 by assumption.
  cbn [orb set_repo repo Git.with_heads heads merging].
  destruct (checkout_fails env branch_name) eqn:Hcheckout.
  { cbn [orb fst snd].
    split; [split; [discriminate | intros (_ & _ & _ & Hc & _); discriminate]
           | discriminate]. }
  destruct (merging (repo st)) eqn:Hmerging.
  { cbn [orb fst snd].
    split; [split; [discriminate | intros (_ & _ & _ & _ & Hc & _); discriminate]
           | discriminate]. }
  rewrite bool_decide_eq_true_2 by (rewrite lookup_insert_eq; eauto).
  cbn [orb negb set_session set_files session].
  rewrite (checkout_files_new env branch_name cur tip st Hhead Htip Hnone).
  destruct (session_write_outcome env) as [| |residue] eqn:Hsave.
  2,3: cbn [fst snd];
       (split; [split; [discriminate | intros (_ & _ & _ & _ & _ & Hc & _); discriminate]
               | discriminate]).
  cbn [set_session_file files].
  destruct (write_outcome env (doc_path branch_name)) as [| |residue] eqn:Hdoc.
  2,3: cbn [fst snd];
       (split; [split; [discriminate | intros (_ & _ & _ & _ & _ & _ & Hc); discriminate]
               | discriminate]).
  cbn [fst snd]. split.
  - split; [intros _ | reflexivity]. repeat split; eauto.
  - intros _. rewrite ?store_doc.
    cbn [repo HEAD heads session session_file files log set_files set_session_file
           set_session set_repo Git.with_HEAD Git.with_heads].
    repeat split; eauto.
    intros Hp Hr. rewrite Hr, Hp. reflexivity.
Qed.


(** X10.  When the documentation log and the session file can both be
    written, [update_documentation] appends the row to the log, appends the
    record to the history, persists the session with it and logs nothing; a
    restart that can read the file loads the session with the record.  When
    the log is written and the session file cannot be, the record is in the
    history in memory while the call still returns normally. *)
Theorem update_documentation_recorded (prompt : string) (changes : PyDict.t string)
    (commit_hash : string) (st : State) (s : Session) :
  session st = Some s ->
  write_outcome env (doc_path (branch s)) = WrOk ->
  let r := update_documentation env prompt changes commit_hash st in
  let s' := append_history (change_record env prompt changes commit_hash) s in
  fst r = Ok tt
  /\ session (snd r) = Some s'
  /\ files (snd r) !! doc_path (branch s)
     = Some (default "" (files st !! doc_path (branch s))
             +:+ change_row env prompt changes commit_hash)
  /\ (session_write_outcome env = WrOk ->
      session_file (snd r) = Some (pickle_dump s')
      /\ log (snd r) = log st
      /\ (pickle_load (pickle_dump s') = Ok s' ->
          session_read_fails env = false ->
          fst (_load_session env (snd r)) = Ok (Some s')))
  /\ (session_write_outcome env = WrOpenFails ->
      session_file (snd r) = session_file st
      /\ log (snd r) <> log st).
Proof.
  intros Hs Hw r s'. subst r s'.
  unfold update_documentation, append_file, _save_session, _load_session.
  run_monad. cbn beta zeta. rewrite Hs, Hw, store_doc, file_named_doc.
  cbn [set_files session set_session]. rewrite Hs. cbn [fmap option_fmap option_map].
  destruct (session_write_outcome env) as [| |residue] eqn:Hsave;
    cbn [fst snd session files session_file log set_session set_files
           set_session_file add_log];
    rewrite lookup_insert_eq;
    (split; [reflexivity|]); (split; [reflexivity|]); (split; [reflexivity|]).
  - split; [|discriminate]. intros _. split; [reflexivity|]. split; [reflexivity|].
    intros Hp Hr. unfold change_record in Hp. now rewrite Hr, Hp.
  - split; [discriminate|]. intros _. split; [reflexivity|].
    intros Hlog. apply (f_equal length) in Hlog.
    rewrite length_app in Hlog. simpl in Hlog. lia.
  - split; discriminate.
Qed.

End LifecycleMore.

(** * More about the merge *)

Section MergeMore.
Context `{Codecs}.
Variable env : Env.









End MergeMore.

(** * The context commands *)

#[local] Set Warnings "-clear-no-such-hyp".

Section ContextMore.
Context `{Codecs}.
Variable env : Env.
Variable path_exists : string -> bool.

(** A run of [add-context] that passes its checks. *)
Lemma add_context_run (args : string) (st : State) (s : Session) :
  session st = Some s -> args <> "" -> path_exists (path_str args) = true ->
  let r := cmd_add_context env path_exists args st in
  let s' := with_context ({[path_str args]} ∪ context_files s) s in
  session (snd r) = Some s'
  /\ repo (snd r) = repo st /\ files (snd r) = files st
  /\ (session_write_outcome env = WrOk ->
      fst r = Ok tt /\ session_file (snd r) = Some (pickle_dump s'))
  /\ (session_write_outcome env <> WrOk ->
      exists msg, fst r = Raise (OSError msg)).
Proof.
  intros Hs Hargs Hex r. subst r.
  unfold cmd_add_context, _save_session. run_monad. cbn beta. rewrite Hs.
  apply String.eqb_neq in Hargs. rewrite Hargs, Hex. cbn [negb session set_session].
  destruct (session_write_outcome env) as [| |residue] eqn:Hw;
    cbn [fst snd session repo files session_file set_session set_session_file add_stdout];
    repeat split; try reflexivity; try discriminate; try congruence; eauto.
Qed.

(** X12.  [add-context] does nothing but print when there is no session,
    when no path is given or when the path does not exist.  Otherwise it
    adds the path as [pathlib] writes it, not as it was typed, leaves the
    rest of the session alone, and persists the session; when the session
    file cannot be written the command raises and the path is already in
    the context in memory. *)
Theorem add_context_cases (args : string) (st : State) :
  let r := cmd_add_context env path_exists args st in
  (session st = None \/ args = "" \/ path_exists (path_str args) = false ->
   exists line, r = (Ok tt, add_stdout line st))
  /\ (forall s,
        session st = Some s -> args <> "" -> path_exists (path_str args) = true ->
        let s' := with_context ({[path_str args]} ∪ context_files s) s in
        session (snd r) = Some s'
        /\ repo (snd r) = repo st /\ files (snd r) = files st
        /\ (session_write_outcome env = WrOk ->
            fst r = Ok tt /\ session_file (snd r) = Some (pickle_dump s'))
        /\ (session_write_outcome env <> WrOk ->
            exists msg, fst r = Raise (OSError msg))).
Proof.
  intros r. subst r. split.
  - unfold cmd_add_context, _save_session. run_monad. cbn beta.
    intros Hcase. destruct (session st) as [s|] eqn:Hs; [|eauto].
    destruct Hcase as [Hc|[->|Hc]]; [discriminate|rewrite String.eqb_refl; eauto|].
    destruct (String.eqb args ""); [eauto|]. rewrite Hc. cbn [negb]. eauto.
  - intros s Hs Hargs Hex. now apply add_context_run.
Qed.

(** X13.  [rm-context] removes exactly the text it is given, so after
    [add-context] and [rm-context] with the same argument the context holds
    the old paths and the path as [pathlib] writes it, without the argument
    as typed: the added path is gone when the argument is already in that
    form, and it stays in the context when the argument is written
    differently, as [./a.py] is. *)
Theorem add_then_rm_context (args : string) (st : State) (s : Session) :
  session st = Some s -> args <> "" -> path_exists (path_str args) = true ->
  session_write_outcome env = WrOk ->
  let st1 := snd (cmd_add_context env path_exists args st) in
  let r2 := cmd_rm_context env args st1 in
  fst r2 = Ok tt
  /\ (exists s2,
        session (snd r2) = Some s2
        /\ context_files s2 = ({[path_str args]} ∪ context_files s) ∖ {[args]}
        /\ (path_str args ∈ context_files s2 <-> path_str args <> args)
        /\ branch s2 = branch s /\ changes_history s2 = changes_history s
        /\ created_at s2 = created_at s
        /\ session_file (snd r2) = Some (pickle_dump s2)).
Proof.
  intros Hs Hargs Hex Hw st1 r2. subst st1 r2.
  destruct (add_context_run args st s Hs Hargs Hex) as (Hs1 & _ & _ & Hok & _).
  destruct (Hok Hw) as [_ Hfile].
  set (st1 := snd (cmd_add_context env path_exists args st)) in *.
  unfold cmd_rm_context, _save_session. run_monad. cbn beta. rewrite Hs1.
  apply String.eqb_neq in Hargs. rewrite Hargs. cbn [context_files with_context].
  destruct (bool_decide (args ∈ {[path_str args]} ∪ context_files s)) eqn:Hin.
  - cbn [session set_session]. rewrite Hw.
    cbn [fst snd session session_file set_session set_session_file add_stdout].
    split; [reflexivity|]. eexists. split; [reflexivity|].
    cbn [context_files branch changes_history created_at with_context].
    clear Hok. repeat split; try reflexivity; set_solver.
  - apply bool_decide_eq_false in Hin.
    cbn [fst snd session session_file add_stdout]. rewrite Hs1, Hfile.
    split; [reflexivity|]. eexists. split; [reflexivity|].
    cbn [context_files branch changes_history created_at with_context].
    clear Hok. repeat split; try reflexivity; set_solver.
Qed.

(** X14.  [rm-context] with a path that is not in the context, and every
    context command without a session, only print.  [rm-context] with a path
    of the context removes that path and no other, and [clear-context]
    empties the context; both keep the branch, the history and the creation
    time of the session. *)
Theorem rm_and_clear_context (args : string) (st : State) :
  (session st = None ->
   exists l1 l2 l3,
     cmd_add_context env path_exists args st = (Ok tt, add_stdout l1 st)
     /\ cmd_rm_context env args st = (Ok tt, add_stdout l2 st)
     /\ cmd_clear_context env st = (Ok tt, add_stdout l3 st))
  /\ (forall s,
        session st = Some s -> args ∉ context_files s ->
        fst (cmd_rm_context env args st) = Ok tt
        /\ session (snd (cmd_rm_context env args st)) = Some s
        /\ session_file (snd (cmd_rm_context env args st)) = session_file st)
  /\ (forall s,
        session st = Some s -> args <> "" -> args ∈ context_files s ->
        session (snd (cmd_rm_context env args st))
        = Some (with_context (context_files s ∖ {[args]}) s))
  /\ (forall s,
        session st = Some s ->
        session (snd (cmd_clear_context env st)) = Some (with_context ∅ s)).
Proof.
  unfold cmd_add_context, cmd_rm_context, cmd_clear_context, _save_session.
  run_monad. cbn beta. split; [|split; [|split]].
  - intros ->. do 3 eexists. repeat split; reflexivity.
  - intros s Hs Hnin. rewrite Hs.
    destruct (String.eqb args "");
      [cbn [fst snd session session_file add_stdout]; auto|].
    rewrite bool_decide_eq_false_2 by assumption.
    cbn [fst snd session session_file add_stdout]. auto.
  - intros s Hs Hargs Hin. rewrite Hs.
    apply String.eqb_neq in Hargs. rewrite Hargs.
    rewrite bool_decide_eq_true_2 by assumption.
    cbn [session set_session].
    destruct (session_write_outcome env); reflexivity.
  - intros s Hs. rewrite Hs. cbn [session set_session].
    destruct (session_write_outcome env); reflexivity.
Qed.

End ContextMore.

(** * The prompt command *)

Section PromptMore.
Import PyStr ParserFacts ParserMore.
Context `{Codecs}.
Variable env : Env.
Variable backend : string -> Result (PyDict.t string).
Variable path_exists : string -> bool.
Variable structural_patterns : list string.

Lemma same_data_refl (st : State) : same_data st st.
Proof. unfold same_data. auto. Qed.

Lemma same_data_trans (st1 st2 st3 : State) :
  same_data st1 st2 -> same_data st2 st3 -> same_data st1 st3.
Proof. unfold same_data. intros (? & ? & ? & ? & ?) (? & ? & ? & ? & ?). repeat split; congruence. Qed.

Lemma same_data_stdout (line : string) (st : State) : same_data st (add_stdout line st).
Proof. unfold same_data. auto. Qed.

Lemma same_data_log (line : string) (st : State) : same_data st (add_log line st).
Proof. unfold same_data. auto. Qed.

Lemma read_context_frame (paths parts : list string) (st : State) :
  snd (read_context env path_exists paths parts st) = st.
Proof.
  revert parts. induction paths as [|p paths IH]; intros parts; [reflexivity|].
  cbn [read_context]. destruct (path_exists p); [|apply IH].
  unfold bind, read_file. destruct (file_at env st p); [|reflexivity].
  destruct (read_fails env p); [reflexivity | apply IH].
Qed.

Lemma collect_patterns_frame (patterns : list string) (d : PyDict.t string)
    (st : State) :
  snd (collect_patterns env patterns d st) = st.
Proof.
  revert d. induction patterns as [|pattern rest IH]; intros d; [reflexivity|].
  cbn [collect_patterns]. unfold bind.
  destruct (glob_paths env pattern) as [paths|e]; [|reflexivity].
  rewrite read_matches_run.
  destruct (List.find (read_fails env) (regular env st paths)); [reflexivity|].
  apply IH.
Qed.

Lemma get_structural_files_frame (st : State) :
  snd (get_structural_files env structural_patterns st) = st.
Proof. apply collect_patterns_frame. Qed.

Lemma build_context_frame (st : State) :
  snd (_build_context env path_exists structural_patterns st) = st.
Proof.
  unfold _build_context, bind, session_context_files, ret.
  pose proof (get_structural_files_frame st) as Hg.
  destruct (get_structural_files env structural_patterns st) as [[d|e] st1].
  2:{ exact Hg. }
  cbn [snd] in Hg. subst st1.
  destruct (session st); [|reflexivity].
  match goal with
  | |- context [read_context env path_exists ?ps ?parts st] =>
      pose proof (read_context_frame ps parts st) as Hr;
      destruct (read_context env path_exists ps parts st) as [[parts'|e] st1]
  end; exact Hr.
Qed.

Lemma make_request_frame (prompt : string) (st : State) :
  same_data st (snd (make_ollama_request env backend path_exists structural_patterns prompt st)).
Proof.
  unfold make_ollama_request. run_monad. cbn beta.
  destruct (session st); [|apply same_data_refl].
  pose proof (build_context_frame st) as Hb.
  destruct (_build_context env path_exists structural_patterns st) as [[context|e] st1].
  - cbn [snd] in Hb. subst st1.
    destruct (backend (structured_prompt context prompt)); cbn [snd];
      [apply same_data_refl | apply same_data_log].
  - cbn [snd] in *. subst st1. apply same_data_refl.
Qed.

Lemma same_data_store (name content : string) (st st2 : State) :
  same_data st st2 ->
  same_data (store env name content st) (store env name content st2).
Proof.
  unfold same_data, store, git_dir. intros (Hs & Hr & Hf & Hsf & Hc).
  rewrite Hr, Hsf, Hc, Hf.
  destruct (inside_git name);
    cbn [session repo files session_file config_file set_git_dir set_files];
    auto.
Qed.

Lemma same_data_stored (items : list (string * string)) (st st2 : State) :
  same_data st st2 -> same_data (stored env items st) (stored env items st2).
Proof.
  revert st st2. induction items as [|[q c] items IH]; intros st st2 Hsame;
    [exact Hsame|].
  rewrite !stored_cons. apply IH. now apply same_data_store.
Qed.

Lemma outside_git_app (l1 l2 : list (string * string)) :
  outside_git (l1 ++ l2) = outside_git l1 && outside_git l2.
Proof. unfold outside_git. apply forallb_app. Qed.

Lemma stored_outside_git_dir (items : list (string * string)) (st : State) :
  outside_git items = true ->
  repo (stored env items st) = repo st
  /\ session_file (stored env items st) = session_file st
  /\ config_file (stored env items st) = config_file st.
Proof. intros Hout. rewrite stored_outside by exact Hout. auto. Qed.

(** [apply_changes] never raises and leaves the session in memory alone;
    what it writes outside [.git] leaves what is inside alone; it writes
    every entry when every write succeeds. *)
Lemma apply_changes_run (changes : PyDict.t string) (st : State) :
  exists ok st',
    apply_changes env changes st = (Ok ok, st')
    /\ session st' = session st
    /\ (outside_git (located env changes) = true ->
        repo st' = repo st /\ session_file st' = session_file st
        /\ config_file st' = config_file st)
    /\ ((forall p, In p (PyDict.keys changes) -> write_ok env p = true) ->
        ok = true /\ st' = stored env (located env changes) st).
Proof.
  unfold apply_changes. run_monad.
  destruct (write_changes_run env changes st)
    as [[-> Hall]|(msg & done & p & c & rest & -> & Hall & Hp & ->)].
  - eexists true, _. split; [reflexivity|].
    split; [apply stored_frame|]. split; [apply stored_outside_git_dir|]. auto.
  - eexists false, _. split; [reflexivity|].
    cbn [session repo session_file config_file add_log].
    split; [|split].
    + destruct (failed_store_frame env (locate env p)
                  (stored env (located env done) st)) as (-> & _).
      apply stored_frame.
    + intros Hout. unfold located in Hout.
      rewrite map_app, outside_git_app in Hout.
      cbn [map outside_git forallb fst] in Hout.
      apply andb_prop in Hout as [Hdone Hout].
      apply andb_prop in Hout as [Hq _]. apply negb_true_iff in Hq.
      fold (located env done) in Hdone.
      destruct (failed_store_outside env (locate env p)
                  (stored env (located env done) st) Hq) as (-> & -> & ->).
      now apply stored_outside_git_dir.
    + intros Hall'. exfalso. rewrite Hall' in Hp; [discriminate|].
      unfold PyDict.keys. rewrite map_app. apply in_or_app. right. now left.
Qed.

Lemma parse_response_get (response : PyDict.t string) (content : string) :
  PyDict.get "response" response = Some content ->
  _parse_ollama_response response = parse_content content.
Proof.
  intros Hget. unfold _parse_ollama_response, PyDict.mem. rewrite Hget.
  destruct response; [discriminate | reflexivity].
Qed.



(** X16.  With a session and a prompt, when the backend answers and the
    text under [response] parses to edits whose writes all succeed,
    [cmd_prompt] leaves what the writes of the edits give, in the order of
    the mapping and each to the file its key reaches, and reports that the
    changes were applied: a file outside [.git] holds the content of the
    last edit that reaches it, and what it held when no edit reaches it.
    For an answer made of an explanation and one section written as the
    prompt asks, whose path reaches a file outside [.git], that file holds
    the body of the fenced block, trimmed, and no other file changes. *)
Theorem prompt_applies_edits (args : string) (st : State) (s : Session)
    (response : PyDict.t string) (content : string) (changes : PyDict.t string) :
  session st = Some s -> args <> "" ->
  fst (make_ollama_request env backend path_exists structural_patterns args st)
  = Ok response ->
  PyDict.get "response" response = Some content ->
  parse_content content = Ok changes ->
  (forall p, In p (PyDict.keys changes) -> write_ok env p = true) ->
  let r := cmd_prompt env backend path_exists structural_patterns args st in
  fst r = Ok tt
  /\ same_data (stored env (located env changes) st) (snd r)
  /\ (forall name, inside_git name = false ->
        files (snd r) !! name
        = after_writes (located env changes) name (files st !! name))
  /\ last (stdout (snd r)) = Some "Changes applied. Use 'review' to inspect changes."
  /\ (forall prefix path a body b,
        content = prefix +:+ FILE_MARK +:+ fenced_section path a body b ->
        contains FILE_MARK prefix = false ->
        contains FILE_MARK (fenced_section path a body b) = false ->
        no_char newline path = true ->
        no_char backtick (path +:+ a +:+ b) = true ->
        body <> "" ->
        inside_git (locate env (strip path)) = false ->
        files (snd r) = <[locate env (strip path) := strip body]> (files st)).
Proof.
  intros Hs Hargs Hreq Hget Hparse Hall r. subst r.
  assert (Hrun : exists st',
             cmd_prompt env backend path_exists structural_patterns args st = (Ok tt, st')
             /\ same_data (stored env (located env changes) st) st'
             /\ last (stdout st')
                = Some "Changes applied. Use 'review' to inspect changes.").
  { unfold cmd_prompt. unfold gets at 1. unfold bind at 1. rewrite Hs.
    apply String.eqb_neq in Hargs. rewrite Hargs.
    unfold try_except, bind.
    pose proof (make_request_frame args st) as Hframe.
    destruct (make_ollama_request env backend path_exists structural_patterns args st)
      as [[response'|e] st1] eqn:Hrun; cbn [fst snd] in *; [|discriminate].
    injection Hreq as ->. rewrite Hget.
    assert (Hexp : exists st2,
               (match explanation content with
                | Some e0 => print (nl +:+ e0 +:+ nl)
                | None => ret tt
                end st1) = (Ok tt, st2) /\ same_data st1 st2).
    { destruct (explanation content); unfold print, modify, ret; eexists;
        (split; [reflexivity|]); [apply same_data_stdout | apply same_data_refl]. }
    destruct Hexp as (st2 & -> & Hsame2).
    pose proof (same_data_trans _ _ _ Hframe Hsame2) as Hsame.
    rewrite (parse_response_get _ _ Hget), Hparse.
    destruct (apply_changes_run changes st2) as (ok & st3 & -> & _ & _ & Hok).
    destruct (Hok Hall) as (-> & ->).
    unfold print, modify. eexists. split; [reflexivity|].
    split; [|apply last_snoc].
    eapply same_data_trans; [|apply same_data_stdout].
    now apply same_data_stored. }
  destruct Hrun as (st' & -> & Hsame & Hout). cbn [fst snd].
  pose proof Hsame as (_ & _ & Hf & _).
  split; [reflexivity|]. split; [exact Hsame|split; [|split; [exact Hout|]]].
  - intros name Hname. rewrite Hf. now apply stored_lookup.
  - intros prefix path a body b -> Hpre Hsec Hnl Hbt Hbody Hgit.
    destruct (fenced_section_parts path a body b Hnl Hbt Hbody) as (Hloc & Hname & Hbody').
    unfold parse_content in Hparse.
    rewrite split_mark, PyStrFacts.split_none in Hparse by assumption.
    cbn [tl parse_sections fold_left] in Hparse.
    rewrite parse_section_located in Hparse by assumption.
    cbn [PyDict.set PyDict.is_empty] in Hparse. injection Hparse as <-.
    rewrite Hf, Hname, Hbody'. unfold located. cbn [map fst snd].
    unfold stored. cbn [fold_left fst snd]. now rewrite store_outside.
Qed.

End PromptMore.

(** * Saving the configuration *)

Section ConfigMore.
Context `{Codecs}.
Variable env : Env.
Variable json_dump : Json -> string.

(** X17.  [update_structural_patterns] replaces what the configuration file
    held: when the file can be written and read and [json] decodes what it
    encoded, a configuration loaded afterwards has exactly the new patterns,
    whatever the file held before, and nothing else of the state changes.
    When the file cannot be opened for writing the call raises, the object
    already holds the new patterns and the file still holds the old ones;
    when the write breaks off and leaves text that [json] rejects, loading
    the configuration afterwards raises. *)
Theorem update_patterns_cases (patterns : list string) (st : State) :
  let run := update_structural_patterns env json_dump patterns st in
  let st' := snd (snd run) in
  fst run = patterns
  /\ session st' = session st /\ repo st' = repo st /\ files st' = files st
  /\ session_file st' = session_file st
  /\ (write_outcome env config_path = WrOk ->
      fst (snd run) = Ok tt
      /\ (config_read_fails env = false ->
          json_load (json_dump (config_document patterns))
          = Ok (config_document patterns) ->
          GitToolConfig_init env st' = (Ok (JArr (map JStr patterns)), st')))
  /\ (write_outcome env config_path = WrOpenFails ->
      (exists msg, fst (snd run) = Raise (OSError msg))
      /\ config_file st' = config_file st)
  /\ (forall residue e,
        write_outcome env config_path = WrTorn residue ->
        config_read_fails env = false ->
        json_load residue = Raise e ->
        (exists msg, fst (snd run) = Raise (OSError msg))
        /\ GitToolConfig_init env st' = (Raise e, st')).
Proof.
  intros run st'. subst run st'.
  unfold update_structural_patterns, save_config, GitToolConfig_init, _load_config, bind.
  cbn [fst snd].
  destruct (write_outcome env config_path) as [| |residue] eqn:Hw;
    cbn [fst snd session repo files session_file config_file set_config_file];
    (split; [reflexivity|]); (split; [reflexivity|]); (split; [reflexivity|]);
    (split; [reflexivity|]); (split; [reflexivity|]).
  - split; [|split; [discriminate | intros ? ? [=]]].
    intros _. split; [reflexivity|]. intros -> ->. reflexivity.
  - split; [discriminate|]. split; [eauto | intros ? ? [=]].
  - split; [discriminate|]. split; [discriminate|].
    intros residue' e [= <-] -> ->. eauto.
Qed.

End ConfigMore.

(** * Further concrete runs *)

Section MoreRuns.
Import PyStr ParserMore.

Lemma later_section_overwrites_witness :
  PyDict.get "a.py" [("a.py", "new")]
  = section_content <$> latest_section "a.py" (tl (split FILE_MARK duplicate_response)).
Proof.
  apply (later_section_overwrites duplicate_response [("a.py", "new")] "a.py").
  vm_compute. reflexivity.
Defined.

Lemma parsed_changes_wellformed_witness :
  NoDup (PyDict.keys [("a.py", "print(1)")]).
Proof.
  apply (parsed_changes_wellformed scenario_response [("a.py", "print(1)")]).
  vm_compute. reflexivity.
Defined.

Lemma structural_files_lookup_witness :
  exists d,
    get_structural_files manifests_env ["requirements.txt"] manifests_state
    = (Ok d, manifests_state)
    /\ PyDict.get "sub/requirements.txt" d = Some "flask".
Proof.
  destruct (structural_files_lookup manifests_env ["requirements.txt"] manifests_state)
    as (d & Hrun & _ & Hin & _).
  - intros pattern [<-|[]]. reflexivity.
  - intros path _. reflexivity.
  - exists d. split; [exact Hrun|]. rewrite Hin; [reflexivity|].
    vm_compute. auto.
Defined.

Lemma from_dict_keys_witness :
  from_dict [("branch", FStr "feat")] <> Built feat_session.
Proof.
  apply (proj1 (proj2 (from_dict_keys [("branch", FStr "feat")]))).
  exists "context_files". split; [vm_compute; auto | reflexivity].
Defined.

Lemma load_session_total_witness :
  exists r st', _load_session calm_env (tool persisted_host) = (Ok r, st').
Proof.
  destruct (load_session_total calm_env (tool persisted_host)) as (r & st' & Hrun & _).
  eauto.
Defined.

Lemma clear_session_cases_witness :
  exists h',
    clear_session false false persisted_host = (Ok tt, h')
    /\ session (tool h') = None /\ session_file (tool h') = None.
Proof.
  destruct (proj2 (clear_session_cases calm_env false false persisted_host))
    as (h' & Hrun & Hs & Hf & _).
  - right. reflexivity.
  - eauto.
Defined.

Lemma create_branch_success_witness :
  fst (create_branch calm_env "feat-x" fresh_state) = Ok true.
Proof.
  apply (proj1 (create_branch_success calm_env "feat-x" fresh_state)).
  split; [vm_compute; reflexivity|].
  split; [exists "main", "c0"; split; vm_compute; reflexivity|].
  repeat split.
Defined.


Lemma update_documentation_recorded_witness :
  session (snd (update_documentation calm_env "add a" [("a.py", "print(1)")]
                  "abc123" feat_state))
  = Some (append_history
            (change_record calm_env "add a" [("a.py", "print(1)")] "abc123")
            feat_session).
Proof.
  apply (update_documentation_recorded calm_env "add a" [("a.py", "print(1)")]
           "abc123" feat_state feat_session); reflexivity.
Defined.


Lemma add_context_cases_witness :
  session (snd (cmd_add_context calm_env all_exist "./a.py" feat_state))
  = Some (with_context ({[path_str "./a.py"]} ∪ context_files feat_session)
            feat_session).
Proof.
  apply (proj2 (add_context_cases calm_env all_exist "./a.py" feat_state) feat_session).
  - reflexivity.
  - discriminate.
  - reflexivity.
Defined.

Lemma add_then_rm_context_witness :
  exists s2,
    session (snd (cmd_rm_context calm_env "./a.py"
                    (snd (cmd_add_context calm_env all_exist "./a.py" feat_state))))
    = Some s2
    /\ (path_str "./a.py" ∈ context_files s2 <-> path_str "./a.py" <> "./a.py").
Proof.
  destruct (add_then_rm_context calm_env all_exist "./a.py" feat_state feat_session)
    as (_ & s2 & Hs & _ & Hin & _).
  - reflexivity.
  - discriminate.
  - reflexivity.
  - reflexivity.
  - eauto.
Defined.

Lemma rm_and_clear_context_witness :
  session (snd (cmd_clear_context calm_env feat_state))
  = Some (with_context ∅ feat_session).
Proof.
  apply (proj2 (proj2 (proj2
           (rm_and_clear_context calm_env all_exist "a.py" feat_state)))).
  reflexivity.
Defined.


(** The answer names one file twice, as [a.py] and as [./a.py]: the file
    holds the content of the second section. *)
Lemma prompt_applies_edits_witness :
  files (snd (cmd_prompt calm_env alias_backend none_exist [] "add a" feat_state))
  !! "a.py" = Some "B".
Proof.
  destruct (prompt_applies_edits calm_env alias_backend none_exist [] "add a"
              feat_state feat_session
              [("response", alias_response)]
              alias_response [("a.py", "A"); ("./a.py", "B")])
    as (_ & _ & Hlast & _).
  - reflexivity.
  - discriminate.
  - vm_compute. reflexivity.
  - reflexivity.
  - vm_compute. reflexivity.
  - intros p _. reflexivity.
  - rewrite (Hlast "a.py" eq_refl). reflexivity.
Defined.

(** An edit for [.git/HEAD] is written like any other: the files outside
    [.git] stay as they are and git loses its checked-out branch. *)
Lemma edit_in_git_dir_reaches_repository :
  let st' := snd (cmd_prompt head_clobber_env head_backend none_exist [] "add a"
                    feat_state) in
  HEAD (repo feat_state) = Some "feat"
  /\ HEAD (repo st') = None
  /\ files st' = files feat_state
  /\ last (stdout st') = Some "Changes applied. Use 'review' to inspect changes.".
Proof. vm_compute. repeat split. Qed.

Lemma update_patterns_cases_witness :
  GitToolConfig_init makefile_env
    (snd (snd (update_structural_patterns makefile_env makefile_json_dump
                 ["Makefile"] makefile_state)))
  = (Ok (JArr [JStr "Makefile"]),
     snd (snd (update_structural_patterns makefile_env makefile_json_dump
                 ["Makefile"] makefile_state))).
Proof.
  apply (update_patterns_cases makefile_env makefile_json_dump ["Makefile"]
           makefile_state).
  - reflexivity.
  - reflexivity.
  - vm_compute. reflexivity.
Defined.

End MoreRuns.

(** * The request to the backend *)

Section RequestMore.
Import PyStr PyStrFacts.
Context `{Codecs}.
Variable env : Env.
Variable backend : string -> Result (PyDict.t string).
Variable path_exists : string -> bool.
Variable structural_patterns : list string.

Lemma explain_mark_border (x r : string) :
  x <> "" -> startswith EXPLAIN_MARK (x +:+ EXPLAIN_MARK +:+ r) = true ->
  startswith EXPLAIN_MARK x = true.
Proof.
  unfold EXPLAIN_MARK. intros Hx Hs.
  destruct x as [|c1 [|c2 [|c3 [|c4 [|c5 x]]]]]; simpl in *;
    try congruence; try assumption;
    repeat match goal with
           | H : _ && _ = true |- _ => apply andb_prop in H as [? H]
           end; discriminate.
Qed.

Lemma explain_mark_no_start (a r : string) :
  contains EXPLAIN_MARK a = false -> no_start EXPLAIN_MARK a (EXPLAIN_MARK +:+ r).
Proof.
  induction a as [|c a IH]; [simpl; trivial|]. intros Ha.
  cbn [contains] in Ha. apply orb_false_elim in Ha as [Hc Ha].
  split; [|auto].
  destruct (startswith EXPLAIN_MARK (String c a +:+ EXPLAIN_MARK +:+ r)) eqn:E;
    [|reflexivity].
  apply explain_mark_border in E; [congruence | discriminate].
Qed.

(** X18.  The explanation that [cmd_prompt] prints is the text before the
    first [FILE:], trimmed, and only when a [FILE:] follows: an answer
    without that marker prints no explanation at all, and blank text before
    the marker prints none either. *)
Theorem explanation_cases :
  (forall text, contains EXPLAIN_MARK text = false -> explanation text = None)
  /\ (forall pre rest,
        contains EXPLAIN_MARK pre = false ->
        explanation (pre +:+ EXPLAIN_MARK +:+ rest)
        = if String.eqb (strip pre) "" then None else Some (strip pre)).
Proof.
  split.
  - intros text Hc. unfold explanation, split1, find.
    fold EXPLAIN_MARK. now rewrite find_from_none.
  - intros pre rest Hc. unfold explanation, split1. fold EXPLAIN_MARK.
    rewrite find_app by now apply explain_mark_no_start.
    pose proof (len_nonneg pre) as Hlen.
    destruct (len pre <? 0) eqn:E; [lia|].
    assert (Hsl : slice 0 (len pre) (pre +:+ EXPLAIN_MARK +:+ rest) = pre)
      by exact (slice_middle "" pre _).
    now rewrite Hsl.
Qed.

Lemma read_context_filter (paths parts : list string) (st : State) :
  read_context env path_exists paths parts st
  = read_context env path_exists (List.filter path_exists paths) parts st.
Proof.
  revert parts st. induction paths as [|p paths IH]; intros parts st; [reflexivity|].
  cbn [read_context List.filter]. destruct (path_exists p) eqn:E; [|apply IH].
  cbn [read_context]. rewrite E. unfold bind.
  destruct (read_file env p st) as [[content|e] st1]; [|reflexivity].
  apply IH.
Qed.

Lemma filter_none {A} (f : A -> bool) (l : list A) :
  (forall x, In x l -> f x = false) -> List.filter f l = [].
Proof.
  induction l as [|x l IH]; intros Hl; [reflexivity|]. cbn [List.filter].
  rewrite (Hl x (or_introl eq_refl)). apply IH. intros y Hy. apply Hl. now right.
Qed.

(** X19.  [make_ollama_request] raises [ValueError] without a session, and
    wraps any failure to build the context in a [ValueError] that names it,
    in both cases without calling the backend and without changing the
    state.  Once the context is built, it returns the answer of the backend
    to the structured prompt unchanged, or logs the failure of the backend
    and raises it again. *)
Theorem make_request_cases (prompt : string) (st : State) :
  let request := make_ollama_request env backend path_exists structural_patterns in
  let build := _build_context env path_exists structural_patterns in
  (session st = None ->
   request prompt st = (Raise (ValueError "No active session"), st))
  /\ (forall e,
        is_Some (session st) -> fst (build st) = Raise e ->
        request prompt st
        = (Raise (ValueError ("Failed to build context: " +:+ exn_str e)), st))
  /\ (forall context,
        is_Some (session st) -> fst (build st) = Ok context ->
        request prompt st
        = match backend (structured_prompt context prompt) with
          | Ok response => (Ok response, st)
          | Raise e =>
              (Raise e,
               add_log ("ERROR - Ollama API request failed: " +:+ exn_str e) st)
          end).
Proof.
  intros request build. subst request build.
  unfold make_ollama_request. run_monad. cbn beta.
  split; [|split].
  - intros ->. reflexivity.
  - intros e [s Hs] Hb. rewrite Hs.
    pose proof (build_context_frame env path_exists structural_patterns st) as Hf.
    destruct (_build_context env path_exists structural_patterns st) as [r st1].
    cbn [fst snd] in *. subst. reflexivity.
  - intros context [s Hs] Hb. rewrite Hs.
    pose proof (build_context_frame env path_exists structural_patterns st) as Hf.
    destruct (_build_context env path_exists structural_patterns st) as [r st1].
    cbn [fst snd] in *. subst.
    now destruct (backend (structured_prompt context prompt)).
Qed.

(** X20.  [_build_context] puts the structural files first, one block per
    file, and skips the context files of the session that no longer exist:
    when none of them exists the context is the blocks of the structural
    files alone.  A context file that exists and is read adds its block; one
    that is no regular file raises [OSError], and one that cannot be read
    makes the call raise the error of the read. *)
Theorem build_context_cases (st : State) (s : Session) (d : PyDict.t string) :
  session st = Some s ->
  get_structural_files env structural_patterns st = (Ok d, st) ->
  let build := _build_context env path_exists structural_patterns in
  let blocks := map (fun item => context_block (fst item) (snd item)) d in
  ((forall p, p ∈ context_files s -> path_exists p = false) ->
   build st = (Ok (join nl blocks), st))
  /\ (forall p,
        context_files s = {[p]} -> path_exists p = true ->
        (forall content,
           file_at env st p = Some content -> read_fails env p = false ->
           build st = (Ok (join nl (blocks ++ [context_block p content])), st))
        /\ (file_at env st p = None ->
            exists msg, build st = (Raise (OSError msg), st))
        /\ (is_Some (file_at env st p) -> read_fails env p = true ->
            build st = (Raise (read_error env p), st))).
Proof.
  intros Hs Hd build blocks. subst build blocks.
  unfold _build_context, bind, session_context_files, ret. rewrite Hd, Hs.
  split.
  - intros Hnone. rewrite read_context_filter.
    replace (List.filter path_exists (elements (context_files s))) with (@nil string).
    + reflexivity.
    + symmetry. apply filter_none.
      intros p Hp. apply list_elem_of_In, elem_of_elements in Hp.
      now apply Hnone.
  - intros p Hctx Hex. rewrite Hctx, elements_singleton.
    cbn [read_context]. rewrite Hex. unfold bind, read_file, ret.
    split; [|split].
    + intros content -> ->. reflexivity.
    + intros ->. eauto.
    + intros [content ->] ->. reflexivity.
Qed.

End RequestMore.

Section RequestRuns.

Lemma explanation_cases_witness : explanation prose_response = None.
Proof.
  apply (proj1 explanation_cases). vm_compute. reflexivity.
Defined.

Lemma make_request_cases_witness :
  make_ollama_request calm_env scenario_backend none_exist [] "add a" fresh_state
  = (Raise (ValueError "No active session"), fresh_state).
Proof.
  apply (make_request_cases calm_env scenario_backend none_exist [] "add a" fresh_state).
  reflexivity.
Defined.

Lemma build_context_cases_witness :
  _build_context calm_env none_exist [] feat_state = (Ok "", feat_state).
Proof.
  apply (build_context_cases calm_env none_exist [] feat_state feat_session []).
  - reflexivity.
  - reflexivity.
  - intros p _. reflexivity.
Defined.

End RequestRuns.
